(** * dreamwish-backend: agent assignment, business hours, auto-response
      and the inbound message pipeline

    A shallow embedding of
      - [backend/websocket.py]                 (ConnectionManager)
      - [backend/services/agent_assignment.py] (AgentAssignmentService)
      - [backend/services/business_hours.py]   (BusinessHoursService)
      - [services/ollama_chatbot.py]           (OllamaChatbot)
      - [services/ai_chatbot.py]               (the complex keywords)
      - [backend/routers/webhook.py]           (process_incoming_message and
                                                the kakao, instagram,
                                                facebook and email handlers)
      - [services/kakao_service.py]            (process_kakao_message)
    over the tables of [models.py], followed by the properties of the
    specification that concern them. *)

From Stdlib Require Import ZArith NArith List Bool String Ascii Lia.
From Stdlib Require Import Permutation Sorted.
Import ListNotations.

Set Implicit Arguments.
Open Scope Z_scope.

(* ================================================================== *)
(** * Python values *)
(* ================================================================== *)

(** A Python [str] is a sequence of Unicode code points: [len], slicing and
    the [in] operator all count code points.  Literals are written as UTF-8
    text and decoded by [utf8]. *)
Definition pystr := list N.

Definition cont (b : N) : N := N.land b 63.

Fixpoint utf8_decode (bs : list N) : pystr :=
  match bs with
  | [] => []
  | b0 :: r0 =>
    if (b0 <? 128)%N then b0 :: utf8_decode r0
    else match r0 with
    | [] => [b0]
    | b1 :: r1 =>
      if (b0 <? 224)%N
      then (N.shiftl (N.land b0 31) 6 + cont b1)%N :: utf8_decode r1
      else match r1 with
      | [] => [b0; b1]
      | b2 :: r2 =>
        if (b0 <? 240)%N
        then (N.shiftl (N.land b0 15) 12 + N.shiftl (cont b1) 6 + cont b2)%N
               :: utf8_decode r2
        else match r2 with
        | [] => [b0; b1; b2]
        | b3 :: r3 =>
          (N.shiftl (N.land b0 7) 18 + N.shiftl (cont b1) 12
           + N.shiftl (cont b2) 6 + cont b3)%N :: utf8_decode r3
        end
      end
    end
  end.

Definition utf8 (s : string) : pystr :=
  utf8_decode (map N_of_ascii (list_ascii_of_string s)).

Fixpoint pystr_eqb (a b : pystr) : bool :=
  match a, b with
  | [], [] => true
  | x :: a', y :: b' => (x =? y)%N && pystr_eqb a' b'
  | _, _ => false
  end.

(** [bool(s)] for a string. *)
Definition truthy (s : pystr) : bool :=
  match s with [] => false | _ :: _ => true end.

(** [a or b] on strings. *)
Definition py_or (a b : pystr) : pystr := if truthy a then a else b.

(** [x or d] where [x] may be [None]. *)
Definition opt_or (x : option pystr) (d : pystr) : pystr :=
  match x with
  | Some s => py_or s d
  | None => d
  end.

Fixpoint startswith (s p : pystr) : bool :=
  match p, s with
  | [], _ => true
  | _ :: _, [] => false
  | c :: p', d :: s' => (c =? d)%N && startswith s' p'
  end.

(** [sub in s]. *)
Fixpoint py_in (sub s : pystr) : bool :=
  startswith s sub ||
  match s with
  | [] => false
  | _ :: s' => py_in sub s'
  end.

(** [any(k in message for k in keywords)]. *)
Definition any_keyword_in (keywords : list pystr) (message : pystr) : bool :=
  existsb (fun k => py_in k message) keywords.

(** [str.isspace] on one code point (CPython 3 table). *)
Definition py_isspace (c : N) : bool :=
  ((9 <=? c) && (c <=? 13) || (28 <=? c) && (c <=? 32)
   || (c =? 133) || (c =? 160) || (c =? 5760)
   || (8192 <=? c) && (c <=? 8202)
   || (c =? 8232) || (c =? 8233) || (c =? 8239) || (c =? 8287)
   || (c =? 12288))%N.

Fixpoint lstrip (s : pystr) : pystr :=
  match s with
  | [] => []
  | c :: s' => if py_isspace c then lstrip s' else s
  end.

(** [s.strip()]. *)
Definition strip (s : pystr) : pystr := rev (lstrip (rev (lstrip s))).


(** [str(x)] where [x] may be [None]. *)
Definition py_str (x : option pystr) : pystr :=
  match x with
  | Some s => s
  | None => utf8 "None"
  end.

(** [bool(x)] where [x] may be [None]. *)
Definition opt_truthy (x : option pystr) : bool :=
  match x with
  | Some s => truthy s
  | None => false
  end.

(** [a or b or ... or d]: the first truthy operand, else the last one. *)
Fixpoint first_truthy (xs : list (option pystr)) (d : pystr) : pystr :=
  match xs with
  | [] => d
  | x :: xs' => if opt_truthy x then py_str x else first_truthy xs' d
  end.

(** What [request.json()] returns: [None], a [bool], an [int], a [float]
    (of which the handlers only ever ask whether it is zero), a [str], a
    [list], or a [dict] with text keys, given as the list of its items. *)
#[warnings="-register-all"] Inductive pyval :=
| PNone
| PBool (b : bool)
| PInt (n : Z)
| PFloat (nonzero : bool)
| PStr (s : pystr)
| PList (items : list pyval)
| PDict (items : list (pystr * pyval)).

(** [bool(v)]. *)
Definition truthy_val (v : pyval) : bool :=
  match v with
  | PNone => false
  | PBool b => b
  | PInt n => negb (n =? 0)
  | PFloat nonzero => nonzero
  | PStr s => truthy s
  | PList items => match items with [] => false | _ :: _ => true end
  | PDict items => match items with [] => false | _ :: _ => true end
  end.

(* ================================================================== *)
(** * The tables of [models.py] *)
(* ================================================================== *)

(** Columns that the schema leaves nullable are [option]s; a [DateTime] is
    an integer instant.  Only the columns the embedded functions read or
    assign are kept: in particular the [updated_at] of customers and
    conversations, which the ORM refreshes by itself on every update of a
    row ([onupdate=datetime.utcnow]), is not among them. *)
Module models.

Module User.
Record t := mk {
  id : Z;
  email : pystr;
  name : option pystr;
  role : option pystr;
  is_active : option bool;
  status : option pystr;
  auto_assign : option bool;
  max_concurrent_chats : option Z
}.
End User.

Module Customer.
Record t := mk {
  id : Z;
  external_id : pystr;
  platform : pystr;
  name : option pystr;
  profile_image : option pystr
}.
Definition set_name (v : option pystr) (c : t) : t :=
  mk (id c) (external_id c) (platform c) v (profile_image c).
Definition set_profile_image (v : option pystr) (c : t) : t :=
  mk (id c) (external_id c) (platform c) (name c) v.
End Customer.

Module Conversation.
Record t := mk {
  id : Z;
  customer_id : Z;
  channel_type : option pystr;
  status : option pystr;
  assigned_agent_id : option Z;
  assigned_at : option Z;
  priority : option Z;
  unread_count : option Z;
  last_message_at : option Z;
  profile_name : option pystr;
  profile_image : option pystr;
  created_at : option Z
}.
Definition set_status (v : option pystr) (c : t) : t :=
  mk (id c) (customer_id c) (channel_type c) v (assigned_agent_id c)
     (assigned_at c) (priority c) (unread_count c) (last_message_at c)
     (profile_name c) (profile_image c) (created_at c).
Definition set_assigned_agent_id (v : option Z) (c : t) : t :=
  mk (id c) (customer_id c) (channel_type c) (status c) v
     (assigned_at c) (priority c) (unread_count c) (last_message_at c)
     (profile_name c) (profile_image c) (created_at c).
Definition set_assigned_at (v : option Z) (c : t) : t :=
  mk (id c) (customer_id c) (channel_type c) (status c)
     (assigned_agent_id c) v (priority c) (unread_count c)
     (last_message_at c) (profile_name c) (profile_image c) (created_at c).
Definition set_unread_count (v : option Z) (c : t) : t :=
  mk (id c) (customer_id c) (channel_type c) (status c)
     (assigned_agent_id c) (assigned_at c) (priority c) v
     (last_message_at c) (profile_name c) (profile_image c) (created_at c).
Definition set_last_message_at (v : option Z) (c : t) : t :=
  mk (id c) (customer_id c) (channel_type c) (status c)
     (assigned_agent_id c) (assigned_at c) (priority c) (unread_count c)
     v (profile_name c) (profile_image c) (created_at c).
Definition set_profile_name (v : option pystr) (c : t) : t :=
  mk (id c) (customer_id c) (channel_type c) (status c)
     (assigned_agent_id c) (assigned_at c) (priority c) (unread_count c)
     (last_message_at c) v (profile_image c) (created_at c).
Definition set_profile_image (v : option pystr) (c : t) : t :=
  mk (id c) (customer_id c) (channel_type c) (status c)
     (assigned_agent_id c) (assigned_at c) (priority c) (unread_count c)
     (last_message_at c) (profile_name c) v (created_at c).
End Conversation.

Module Message.
Record t := mk {
  id : Z;
  conversation_id : Z;
  sender_type : option pystr;
  sender_id : option Z;
  content : pystr;
  message_type : option pystr;
  status : option pystr;
  channel : option pystr;
  created_at : option Z
}.
End Message.

Module BusinessHours.
Record t := mk {
  id : Z;
  day_of_week : Z;
  open_time : pystr;
  close_time : pystr;
  is_active : option bool;
  timezone : option pystr
}.
End BusinessHours.

End models.
Import models.

(** The database behind a [Session]: each table is the list of its rows in
    storage order, which is the order [first()] and [all()] see. *)
Record DB := mkDB {
  users : list User.t;
  customers : list Customer.t;
  conversations : list Conversation.t;
  messages : list Message.t;
  business_hours : list BusinessHours.t
}.

Definition set_customers (v : list Customer.t) (d : DB) : DB :=
  mkDB (users d) v (conversations d) (messages d) (business_hours d).
Definition set_conversations (v : list Conversation.t) (d : DB) : DB :=
  mkDB (users d) (customers d) v (messages d) (business_hours d).
Definition set_messages (v : list Message.t) (d : DB) : DB :=
  mkDB (users d) (customers d) (conversations d) v (business_hours d).

(** The integer primary key given to a new row: one past the largest. *)
Definition next_id (ids : list Z) : Z := 1 + fold_right Z.max 0 ids.

(** SQL comparisons of a nullable column with a constant: NULL never
    matches. *)
Definition col_eq (c : option pystr) (v : pystr) : bool :=
  match c with
  | Some s => pystr_eqb s v
  | None => false
  end.

Definition col_true (c : option bool) : bool :=
  match c with
  | Some b => b
  | None => false
  end.

Definition col_eqZ (c : option Z) (v : Z) : bool :=
  match c with
  | Some z => z =? v
  | None => false
  end.

(** Writing through an ORM object: the changed columns of the row with that
    primary key are updated where the row sits. *)
Fixpoint update_row {A} (key : A -> Z) (k : Z) (f : A -> A) (rows : list A)
  : list A :=
  match rows with
  | [] => []
  | r :: rows' =>
    if key r =? k then f r :: rows' else r :: update_row key k f rows'
  end.

Definition update_conversation (k : Z) (f : Conversation.t -> Conversation.t)
  (d : DB) : DB :=
  set_conversations (update_row Conversation.id k f (conversations d)) d.

Definition update_customer (k : Z) (f : Customer.t -> Customer.t) (d : DB)
  : DB :=
  set_customers (update_row Customer.id k f (customers d)) d.

(* ================================================================== *)
(** * Effects: exceptions, the live connections, the console *)
(* ================================================================== *)

Inductive exn :=
| TypeError          (* comparing an int with None, iterating a number *)
| ValueError         (* strptime on a malformed time *)
| AttributeError     (* .get or .split on a value that has none *)
| WebSocketError.    (* send_text on a broken connection *)

Inductive Outcome (A : Type) :=
| Ok (a : A)
| Raise (e : exn).
Arguments Ok {A} a.
Arguments Raise {A} e.

(** What goes over a WebSocket.  [json.dumps] of the dictionaries the code
    builds is kept as the dictionary itself. *)
Inductive Payload :=
| new_customer_message
    (conversation_id customer_id : Z) (customer_name : pystr)
    (profile_image : option pystr) (channel : pystr)
    (message_id : Z) (content : pystr) (created_at : option Z)
    (ai_responded : bool)
| conversation_ended (conversation_id : Z)
| text_message (message : pystr).

(** A live connection: [send_text] on a broken one raises, on a healthy one
    it delivers. *)
Record WebSocket := mkWS {
  broken : bool;
  delivered : list Payload
}.

Definition send_text (ws : WebSocket) (message : Payload)
  : Outcome unit * WebSocket :=
  if broken ws then (Raise WebSocketError, ws)
  else (Ok tt, mkWS false (delivered ws ++ [message])).

(** Lines written by [print]. *)
Inductive LogLine :=
| log_client_connected (client_id : pystr)
| log_client_disconnected (client_id : pystr)
| log_broadcast_error (client_id : pystr)
| log_agent_broadcast_error (client_id : pystr)
| log_no_agent (conversation_id : Z)
| log_assigned (conversation_id agent_id current_load capacity : Z)
| log_reassigned (conversation_id : Z) (old_agent_id : option Z)
                 (new_agent_id : Z)
| log_ollama_failed
| log_customer_created (customer_id : Z)
| log_customer_updated (customer_id : Z)
| log_conversation_created (conversation_id : Z)
| log_conversation_updated (conversation_id : Z)
| log_ai_reply (reply : pystr)
| log_message_processed (platform : pystr)
| log_kakao_received
| log_kakao_extracted (user_id user_name user_message : pystr)
| log_kakao_left (user_id : pystr)
| log_conversation_closed (conversation_id : Z)
| log_saved
| log_hours_exist
| log_hours_created
| log_missing_data (has_user_id has_message : bool)
| log_channel_received (platform : pystr)
| log_no_entry
| log_channel_message (platform sender text : pystr)
| log_profile_lookup (text : pystr)
| log_channel_profile (platform user_name profile_pic : pystr)
| log_channel_processed (platform : pystr) (conversation_id : Z)
                        (ai_responded : bool)
| log_email_message (sender subject : pystr).

(** The mutable state a request can touch: the database, the dictionary
    [manager.active_connections] (in insertion order) and the console. *)
Record World := mkWorld {
  db : DB;
  active_connections : list (pystr * WebSocket);
  stdout : list LogLine
}.

(** What a request reads from outside: the clocks and the local model. *)
Record PyTime := mkTime {
  hour : Z; minute : Z; second : Z; microsecond : Z
}.

Record LocalNow := mkNow {
  weekday : Z;          (* 0 = Monday ... 6 = Sunday *)
  time_of_day : PyTime
}.

Inductive ChatOutcome :=
| chat_raises                      (* ollama.chat, or reading its result, raises *)
| chat_reply (answer : pystr).

Record Env := mkEnv {
  utcnow : Z;                      (* datetime.utcnow(), read once per request *)
  now : pystr -> LocalNow;         (* datetime.now(pytz.timezone(tz)) *)
  ollama_available : bool;         (* self.available and ollama *)
  ollama_chat : ChatOutcome        (* the call of ollama.chat *)
}.

(** State and exceptions. *)
Definition M (A : Type) : Type := World -> Outcome A * World.

Definition ret {A} (a : A) : M A := fun w => (Ok a, w).

Definition bind {A B} (m : M A) (k : A -> M B) : M B :=
  fun w =>
    match m w with
    | (Ok a, w') => k a w'
    | (Raise e, w') => (Raise e, w')
    end.

Notation "x <- m ;; k" := (bind m (fun x => k))
  (at level 61, m at next level, right associativity).
Notation "m ;;; k" := (bind m (fun _ => k))
  (at level 61, right associativity).

Definition raise {A} (e : exn) : M A := fun w => (Raise e, w).

Definition lift {A} (o : Outcome A) : M A := fun w => (o, w).

Definition get_db : M DB := fun w => (Ok (db w), w).

Definition modify_db (f : DB -> DB) : M unit :=
  fun w => (Ok tt, mkWorld (f (db w)) (active_connections w) (stdout w)).

Definition print (l : LogLine) : M unit :=
  fun w => (Ok tt, mkWorld (db w) (active_connections w) (stdout w ++ [l])).

Definition when (b : bool) (m : M unit) : M unit := if b then m else ret tt.

(** [for x in l: f(x)]. *)
Fixpoint for_each {A} (f : A -> M unit) (l : list A) : M unit :=
  match l with
  | [] => ret tt
  | x :: l' => f x ;;; for_each f l'
  end.

(* ================================================================== *)
(** * Reading a request body *)
(* ================================================================== *)

Definition and_then {A B} (o : Outcome A) (k : A -> Outcome B) : Outcome B :=
  match o with
  | Ok a => k a
  | Raise e => Raise e
  end.

(** [v.get(key, default)]: only a [dict] has [get]. *)
Definition dict_get (v : pyval) (key : pystr) (default : pyval)
  : Outcome pyval :=
  match v with
  | PDict items =>
    Ok (match find (fun kv => pystr_eqb (fst kv) key) items with
        | Some kv => snd kv
        | None => default
        end)
  | _ => Raise AttributeError
  end.

(** [v.get(k1, {}).get(k2, {}) ... .get(kn)]. *)
Fixpoint get_in (v : pyval) (path : list pystr) : Outcome pyval :=
  match path with
  | [] => Ok v
  | [key] => dict_get v key PNone
  | key :: path' =>
    and_then (dict_get v key (PDict [])) (fun v' => get_in v' path')
  end.

(** [a or b]: [b] is evaluated only when [a] is falsy. *)
Definition or_else (a b : Outcome pyval) : Outcome pyval :=
  and_then a (fun v => if truthy_val v then Ok v else b).

(** The items [for x in v] goes through: the elements of a list, the
    characters of a text, the keys of a dict; anything else is not
    iterable. *)
Definition iterate (v : pyval) : Outcome (list pyval) :=
  match v with
  | PList items => Ok items
  | PStr s => Ok (map (fun c => PStr [c]) s)
  | PDict items => Ok (map (fun kv => PStr (fst kv)) items)
  | _ => Raise TypeError
  end.

(** [s.split("@")[0]]. *)
Fixpoint before_at (s : pystr) : pystr :=
  match s with
  | [] => []
  | c :: s' => if (c =? 64)%N then [] else c :: before_at s'
  end.

(* ================================================================== *)
(** * backend/websocket.py *)
(* ================================================================== *)

Module ConnectionManager.

(** [client_id in self.active_connections]. *)
Fixpoint lookup (client_id : pystr) (conns : list (pystr * WebSocket))
  : option WebSocket :=
  match conns with
  | [] => None
  | (k, ws) :: conns' =>
    if pystr_eqb k client_id then Some ws else lookup client_id conns'
  end.

(** [self.active_connections[client_id] = websocket]: an existing key keeps
    its place, a new one goes last. *)
Fixpoint store (client_id : pystr) (ws : WebSocket)
  (conns : list (pystr * WebSocket)) : list (pystr * WebSocket) :=
  match conns with
  | [] => [(client_id, ws)]
  | (k, old) :: conns' =>
    if pystr_eqb k client_id then (k, ws) :: conns'
    else (k, old) :: store client_id ws conns'
  end.

(** [del self.active_connections[client_id]]. *)
Fixpoint remove (client_id : pystr) (conns : list (pystr * WebSocket))
  : list (pystr * WebSocket) :=
  match conns with
  | [] => []
  | (k, ws) :: conns' =>
    if pystr_eqb k client_id then conns'
    else (k, ws) :: remove client_id conns'
  end.

Definition set_connections (conns : list (pystr * WebSocket)) : M unit :=
  fun w => (Ok tt, mkWorld (db w) conns (stdout w)).

Definition get_connections : M (list (pystr * WebSocket)) :=
  fun w => (Ok (active_connections w), w).

Definition connect (websocket : WebSocket) (client_id : pystr) : M unit :=
  conns <- get_connections ;;
  set_connections (store client_id websocket conns) ;;;
  print (log_client_connected client_id).

Definition disconnect (client_id : pystr) : M unit :=
  conns <- get_connections ;;
  match lookup client_id conns with
  | Some _ =>
    set_connections (remove client_id conns) ;;;
    print (log_client_disconnected client_id)
  | None => ret tt
  end.

(** [await connection.send_text(message)] on the connection stored under
    [client_id]; the connection object is updated where it is stored. *)
Definition send_on (client_id : pystr) (message : Payload) : M unit :=
  fun w =>
    match lookup client_id (active_connections w) with
    | Some ws =>
      let (r, ws') := send_text ws message in
      (r, mkWorld (db w) (store client_id ws' (active_connections w))
                  (stdout w))
    | None => (Ok tt, w)
    end.

(** [try: m except Exception as e: print(line)]. *)
Definition try_except (m : M unit) (line : LogLine) : M unit :=
  fun w =>
    match m w with
    | (Ok tt, w') => (Ok tt, w')
    | (Raise _, w') => print line w'
    end.

Definition send_personal_message (message : Payload) (client_id : pystr)
  : M unit :=
  conns <- get_connections ;;
  match lookup client_id conns with
  | Some _ => send_on client_id message
  | None => ret tt
  end.

(** The [for client_id, connection in self.active_connections.items()]
    loops, over the client ids present when the loop starts. *)
Fixpoint broadcast_loop (message : Payload) (ids : list pystr) : M unit :=
  match ids with
  | [] => ret tt
  | client_id :: ids' =>
    try_except (send_on client_id message) (log_broadcast_error client_id) ;;;
    broadcast_loop message ids'
  end.

Definition broadcast (message : Payload) : M unit :=
  conns <- get_connections ;;
  broadcast_loop message (map fst conns).

Definition is_excluded (client_id : pystr) (exclude_client : option pystr)
  : bool :=
  match exclude_client with
  | Some x => pystr_eqb client_id x
  | None => false
  end.

Fixpoint broadcast_to_agents_loop (message : Payload)
  (exclude_client : option pystr) (ids : list pystr) : M unit :=
  match ids with
  | [] => ret tt
  | client_id :: ids' =>
    when (negb (is_excluded client_id exclude_client)
          && startswith client_id (utf8 "agent_"))
      (try_except (send_on client_id message)
                  (log_agent_broadcast_error client_id)) ;;;
    broadcast_to_agents_loop message exclude_client ids'
  end.

Definition broadcast_to_agents (message : Payload)
  (exclude_client : option pystr) : M unit :=
  conns <- get_connections ;;
  broadcast_to_agents_loop message exclude_client (map fst conns).

(** What one delivery attempt leaves of a connection: a healthy one has the
    message appended, a broken one is as it was. *)
Definition after_send (message : Payload) (ws : WebSocket) : WebSocket :=
  snd (send_text ws message).

(** The clients [broadcast_to_agents] tries to reach. *)
Definition is_agent_target (exclude_client : option pystr)
  (client_id : pystr) : bool :=
  negb (is_excluded client_id exclude_client)
  && startswith client_id (utf8 "agent_").

(** A dictionary has each key once. *)
Definition unique_keys (conns : list (pystr * WebSocket)) : Prop :=
  NoDup (map fst conns).

(** The registry after one delivery attempt on each client picked by
    [target], and the lines printed for the attempts that failed. *)
Definition reached (target : pystr -> bool) (message : Payload)
  (conns : list (pystr * WebSocket)) : list (pystr * WebSocket) :=
  map (fun c => (fst c, if target (fst c) then after_send message (snd c)
                        else snd c)) conns.

Definition failures (target : pystr -> bool) (line : pystr -> LogLine)
  (conns : list (pystr * WebSocket)) : list LogLine :=
  flat_map (fun c => if target (fst c) && broken (snd c)
                     then [line (fst c)] else []) conns.

End ConnectionManager.

(* ================================================================== *)
(** * Python's stable [list.sort(key=...)] *)
(* ================================================================== *)

Section StableSort.
Variable A : Type.
Variable key : A -> Z.

(** [x] goes in front of the first element whose key is not smaller, so an
    element never overtakes an equal one that came before it. *)
Fixpoint insert_by (x : A) (l : list A) : list A :=
  match l with
  | [] => [x]
  | y :: l' => if key x <=? key y then x :: l else y :: insert_by x l'
  end.

Fixpoint sort_by (l : list A) : list A :=
  match l with
  | [] => []
  | x :: l' => insert_by x (sort_by l')
  end.

End StableSort.

(* ================================================================== *)
(** * backend/services/agent_assignment.py *)
(* ================================================================== *)

Module AgentAssignmentService.

(** One entry of the list [get_available_agents] returns:
    [{"agent": ..., "current_load": ..., "capacity": ...}]. *)
Record entry := mk_entry {
  agent : User.t;
  current_load : Z;
  capacity : Z
}.

(** The first query: the pool of agents open to automatic assignment. *)
Definition in_pool (u : User.t) : bool :=
  col_eq (User.role u) (utf8 "agent")
  && col_true (User.is_active u)
  && col_eq (User.status u) (utf8 "online")
  && col_true (User.auto_assign u).

(** [func.count(Conversation.id)] over the open conversations assigned to
    an agent. *)
Definition open_chats (d : DB) (agent_id : Z) : Z :=
  Z.of_nat (List.length (filter
    (fun c => col_eqZ (Conversation.assigned_agent_id c) agent_id
              && col_eq (Conversation.status c) (utf8 "open"))
    (conversations d))).

(** The [for agent in agents] loop; [current_chats < None] is a
    [TypeError]. *)
Fixpoint available_loop (d : DB) (agents : list User.t)
  (available : list entry) : Outcome (list entry) :=
  match agents with
  | [] => Ok available
  | a :: agents' =>
    let current_chats := open_chats d (User.id a) in
    match User.max_concurrent_chats a with
    | None => Raise TypeError
    | Some cap =>
      if current_chats <? cap
      then available_loop d agents'
             (available ++ [mk_entry a current_chats cap])
      else available_loop d agents' available
    end
  end.

Definition get_available_agents (d : DB) : Outcome (list entry) :=
  let agents := filter in_pool (users d) in
  match available_loop d agents [] with
  | Ok available => Ok (sort_by current_load available)
  | Raise e => Raise e
  end.

Definition assign_agent_to_conversation (env : Env) (conversation_id : Z)
  : M bool :=
  d <- get_db ;;
  match find (fun c => Conversation.id c =? conversation_id)
             (conversations d) with
  | None => ret false
  | Some conversation =>
    match Conversation.assigned_agent_id conversation with
    | Some _ => ret true
    | None =>
      available_agents <- lift (get_available_agents d) ;;
      match available_agents with
      | [] =>
        print (log_no_agent conversation_id) ;;;
        ret false
      | selected :: _ =>
        let a := agent selected in
        modify_db (update_conversation (Conversation.id conversation)
          (fun c =>
             Conversation.set_status (Some (utf8 "open"))
               (Conversation.set_assigned_at (Some (utcnow env))
                 (Conversation.set_assigned_agent_id (Some (User.id a))
                    c)))) ;;;
        print (log_assigned conversation_id (User.id a)
                 (current_load selected) (capacity selected)) ;;;
        ret true
      end
    end
  end.

Definition reassign_agent (env : Env) (conversation_id new_agent_id : Z)
  : M bool :=
  d <- get_db ;;
  match find (fun c => Conversation.id c =? conversation_id)
             (conversations d) with
  | None => ret false
  | Some conversation =>
    match find (fun u => (User.id u =? new_agent_id)
                         && col_eq (User.role u) (utf8 "agent"))
               (users d) with
    | None => ret false
    | Some new_agent =>
      let old_agent_id := Conversation.assigned_agent_id conversation in
      modify_db (update_conversation (Conversation.id conversation)
        (fun c =>
           Conversation.set_assigned_at (Some (utcnow env))
             (Conversation.set_assigned_agent_id (Some new_agent_id) c))) ;;;
      print (log_reassigned conversation_id old_agent_id new_agent_id) ;;;
      ret true
    end
  end.

(** The availability query in the words of the specification: the pool
    filtered to role agent, active, online and auto-assign, each agent with
    its count of open conversations, kept when the count is strictly below
    [max_concurrent_chats], in pool order. *)
Definition annotate (d : DB) (u : User.t) : list entry :=
  match User.max_concurrent_chats u with
  | Some cap =>
    if open_chats d (User.id u) <? cap
    then [mk_entry u (open_chats d (User.id u)) cap]
    else []
  | None => []
  end.

Definition available_agents_spec (d : DB) : list entry :=
  flat_map (annotate d) (filter in_pool (users d)).



(** The columns of a conversation that assignment does not assign. *)
Definition unassigned_part (c : Conversation.t)
  : Z * Z * option pystr * option pystr * option Z * option Z * option Z
    * option pystr * option pystr * option Z :=
  (Conversation.id c, Conversation.customer_id c,
   Conversation.channel_type c, Conversation.status c,
   Conversation.priority c, Conversation.unread_count c,
   Conversation.last_message_at c, Conversation.profile_name c,
   Conversation.profile_image c, Conversation.created_at c).

End AgentAssignmentService.

(* ================================================================== *)
(** * backend/services/business_hours.py *)
(* ================================================================== *)

Module BusinessHoursService.

(** The code points [\d] matches in a [str] pattern: the decimal digits of
    Unicode 14, which come in runs of ten, each run from its zero. *)
Definition decimal_zeros : list N :=
  [ 48; 1632; 1776; 1984; 2406; 2534; 2662; 2790; 2918; 3046; 3174; 3302;
    3430; 3558; 3664; 3792; 3872; 4160; 4240; 6112; 6160; 6470; 6608; 6784;
    6800; 6992; 7088; 7232; 7248; 42528; 43216; 43264; 43472; 43504; 43600;
    44016; 65296; 66720; 68912; 69734; 69872; 69942; 70096; 70384; 70736;
    70864; 71248; 71360; 71472; 71904; 72016; 72784; 73040; 73120; 92768;
    92864; 93008; 120782; 120792; 120802; 120812; 120822; 123200; 123632;
    125264; 130032 ]%N.

(** [\d], with the value [int] gives the digit. *)
Definition digit (c : N) : option Z :=
  match find (fun z => (z <=? c) && (c <? z + 10))%N decimal_zeros with
  | Some z => Some (Z.of_N (c - z))
  | None => None
  end.

(** [[0-n]]: an ASCII digit up to [n]. *)
Definition ascii_digit (n : N) (c : N) : option Z :=
  if ((48 <=? c) && (c <=? 48 + n))%N then Some (Z.of_N c - 48) else None.

(** The [%H] directive, [2[0-3]|[0-1]\d|\d], followed by the colon: the
    alternatives are tried in this order, the next one when the colon does
    not follow. *)
Definition parse_hour (s : pystr) : option (Z * pystr) :=
  match s with
  | c1 :: c2 :: r =>
    let one_digit :=
      match digit c1 with
      | Some d1 => if (c2 =? 58)%N then Some (d1, r) else None
      | None => None
      end in
    let two_digit_hour (h : Z) :=
      match r with
      | 58%N :: r' => Some (h, r')
      | _ => one_digit
      end in
    match (if (c1 =? 50)%N then ascii_digit 3 c2 else None) with
    | Some d2 => two_digit_hour (20 + d2)
    | None =>
      match ascii_digit 1 c1, digit c2 with
      | Some d1, Some d2 => two_digit_hour (10 * d1 + d2)
      | _, _ => one_digit
      end
    end
  | _ => None
  end.

(** The [%M] directive, [[0-5]\d|\d]. *)
Definition parse_minute (s : pystr) : option (Z * pystr) :=
  match s with
  | c1 :: r =>
    let one_digit :=
      match digit c1 with
      | Some d1 => Some (d1, r)
      | None => None
      end in
    match ascii_digit 5 c1, r with
    | Some d1, c2 :: r' =>
      match digit c2 with
      | Some d2 => Some (10 * d1 + d2, r')
      | None => one_digit
      end
    | _, _ => one_digit
    end
  | [] => None
  end.

(** [datetime.strptime(s, "%H:%M").time()]: a [ValueError] when the text
    does not match or is not used up. *)
Definition strptime_HM (s : pystr) : Outcome PyTime :=
  match parse_hour s with
  | Some (h, r) =>
    match parse_minute r with
    | Some (m, []) => Ok (mkTime h m 0 0)
    | _ => Raise ValueError
    end
  | None => Raise ValueError
  end.

(** A wall-clock time written the way the table stores it, ["HH:MM"] with
    two digits each. *)
Definition two_digits (n : Z) : pystr :=
  [Z.to_N (48 + n / 10); Z.to_N (48 + n mod 10)].

Definition hhmm (h m : Z) : pystr := two_digits h ++ [58%N] ++ two_digits m.

(** The order of [datetime.time] values. *)
Definition micros (t : PyTime) : Z :=
  ((hour t * 60 + minute t) * 60 + second t) * 1000000 + microsecond t.

Definition time_le (a b : PyTime) : bool := micros a <=? micros b.

Definition is_business_hours (env : Env) (d : DB) (timezone : pystr)
  : Outcome bool :=
  let current_time := time_of_day (now env timezone) in
  let current_day := weekday (now env timezone) in
  match find (fun b => (BusinessHours.day_of_week b =? current_day)
                       && col_true (BusinessHours.is_active b))
             (business_hours d) with
  | None => Ok true
  | Some business_hour =>
    match strptime_HM (BusinessHours.open_time business_hour) with
    | Raise e => Raise e
    | Ok open_time =>
      match strptime_HM (BusinessHours.close_time business_hour) with
      | Raise e => Raise e
      | Ok close_time =>
        if time_le open_time current_time && time_le current_time close_time
        then Ok true
        else Ok false
      end
    end
  end.

Definition should_auto_respond (env : Env) (d : DB) : Outcome bool :=
  match is_business_hours env d (utf8 "Asia/Seoul") with
  | Raise e => Raise e
  | Ok is_open =>
    if negb is_open then Ok true
    else
      match AgentAssignmentService.get_available_agents d with
      | Raise e => Raise e
      | Ok available_agents =>
        match available_agents with
        | [] => Ok true
        | _ :: _ => Ok false
        end
      end
  end.

(** [db.add(models.BusinessHours(...))]. *)
Definition add_hours (open_time close_time : pystr) (is_active : bool)
  (d : DB) (day : Z) : DB :=
  mkDB (users d) (customers d) (conversations d) (messages d)
    (business_hours d ++
       [BusinessHours.mk (next_id (map BusinessHours.id (business_hours d)))
          day open_time close_time (Some is_active)
          (Some (utf8 "Asia/Seoul"))]).

(** Monday to Friday 09:00-18:00; Saturday and Sunday are rows with
    [is_active=False] (the source's comment: closed days). *)
Definition create_default_business_hours : M unit :=
  d <- get_db ;;
  match business_hours d with
  | _ :: _ => print log_hours_exist
  | [] =>
    modify_db (fun d =>
      fold_left (add_hours (utf8 "09:00") (utf8 "18:00") true)
                [0; 1; 2; 3; 4] d) ;;;
    modify_db (fun d =>
      fold_left (add_hours (utf8 "00:00") (utf8 "00:00") false) [5; 6] d) ;;;
    print log_hours_created
  end.

End BusinessHoursService.

(* ================================================================== *)
(** * services/ollama_chatbot.py *)
(* ================================================================== *)

Module OllamaChatbot.

Definition simple_keywords : list pystr :=
  [ utf8 "안녕"; utf8 "사용법"; utf8 "방법"; utf8 "기능"; utf8 "채널";
    utf8 "연동"; utf8 "위젯"; utf8 "대시보드"; utf8 "팀원"; utf8 "초대";
    utf8 "가입"; utf8 "로그인" ].

Definition should_auto_respond (message : pystr) : bool :=
  any_keyword_in simple_keywords message.

Definition unavailable_reply : pystr :=
  utf8 "죄송합니다. 현재 AI 챗봇 서비스를 사용할 수 없습니다. 상담원과 연결해드리겠습니다.".

Definition failure_reply : pystr :=
  utf8 "죄송합니다. 일시적인 오류가 발생했습니다. 상담원과 연결해드리겠습니다.".

Definition truncation_notice : pystr :=
  [46; 46; 46; 10; 10]%N
  ++ utf8 "더 자세한 내용은 상담원과 연결해드리겠습니다.".

(** [get_response]: the prompt (system prompt, knowledge-base context, the
    last five history entries, the question) only feeds [ollama.chat] and
    building it cannot raise, so the call is summarised by what it does in
    this run.  Everything is inside [try ... except Exception]. *)
Definition get_response (env : Env) (user_message : pystr) : M pystr :=
  if negb (ollama_available env) then ret unavailable_reply
  else
    match ollama_chat env with
    | chat_raises =>
      print log_ollama_failed ;;;
      ret failure_reply
    | chat_reply answer =>
      let answer := strip answer in
      if Z.of_nat (List.length answer) >? 500
      then ret (firstn 500 answer ++ truncation_notice)
      else ret answer
    end.

(** The dictionary of [analyze_intent], in its order; the last intent has
    no keyword and is also the fallback. *)
Definition intents : list (pystr * list pystr) :=
  [ (utf8 "인사", [utf8 "안녕"; utf8 "hi"; utf8 "hello"; utf8 "반가"]);
    (utf8 "기능_문의",
       [utf8 "기능"; utf8 "사용법"; utf8 "방법"; utf8 "어떻게"]);
    (utf8 "채널_연동",
       [utf8 "카카오"; utf8 "인스타"; utf8 "페이스북"; utf8 "연동";
        utf8 "채널"]);
    (utf8 "문제_해결",
       [utf8 "오류"; utf8 "안돼"; utf8 "작동"; utf8 "문제"]);
    (utf8 "기타", []) ].

(** [for intent, keywords in intents.items(): if any(...): return intent]. *)
Fixpoint first_intent (items : list (pystr * list pystr)) (message : pystr)
  : option pystr :=
  match items with
  | [] => None
  | (intent, keywords) :: items' =>
    if any_keyword_in keywords message then Some intent
    else first_intent items' message
  end.

Definition analyze_intent (message : pystr) : pystr :=
  match first_intent intents message with
  | Some intent => intent
  | None => utf8 "기타"
  end.

End OllamaChatbot.

(* ================================================================== *)
(** * services/ai_chatbot.py *)
(* ================================================================== *)

Module AIChatbot.


End AIChatbot.

(* ================================================================== *)
(** * backend/routers/webhook.py *)
(* ================================================================== *)

Module webhook.

(** The dictionary [process_incoming_message] returns; its ["status"] is
    always ["success"]. *)
Record processed := mk_processed {
  conversation_id : Z;
  ai_responded : bool
}.

(** Step 1: find the customer by (external_id, platform) or create it;
    an existing one has its name and picture refreshed. *)
Definition resolve_customer (platform external_id name : pystr)
  (profile_image : option pystr) : M Customer.t :=
  d <- get_db ;;
  match find (fun c => pystr_eqb (Customer.external_id c) external_id
                       && pystr_eqb (Customer.platform c) platform)
             (customers d) with
  | None =>
    let customer :=
      Customer.mk (next_id (map Customer.id (customers d)))
        external_id platform
        (Some (py_or name (platform ++ utf8 "_user")))
        profile_image in
    modify_db (fun d => set_customers (customers d ++ [customer]) d) ;;;
    print (log_customer_created (Customer.id customer)) ;;;
    ret customer
  | Some customer =>
    let new_name :=
      truthy name && negb (pystr_eqb (py_str (Customer.name customer)) name) in
    let new_image :=
      opt_truthy profile_image
      && negb (pystr_eqb (opt_or (Customer.profile_image customer) [])
                         (py_str profile_image)) in
    let write (c : Customer.t) :=
      (if new_image then Customer.set_profile_image profile_image c else c) in
    let write (c : Customer.t) :=
      write (if new_name then Customer.set_name (Some name) c else c) in
    if new_name || new_image then
      modify_db (update_customer (Customer.id customer) write) ;;;
      print (log_customer_updated (Customer.id customer)) ;;;
      ret (write customer)
    else ret customer
  end.

(** The filter of the conversation lookup: customer and channel. *)
Definition on_channel (customer : Customer.t) (platform : pystr)
  (c : Conversation.t) : bool :=
  (Conversation.customer_id c =? Customer.id customer)
  && col_eq (Conversation.channel_type c) platform.

(** Step 2: find the conversation of that customer on that channel or
    create it (and try to assign an agent to the new one). *)
Definition resolve_conversation (env : Env) (customer : Customer.t)
  (platform name : pystr) (profile_image : option pystr)
  : M Z :=
  d <- get_db ;;
  match find (on_channel customer platform) (conversations d) with
  | None =>
    let conversation :=
      Conversation.mk (next_id (map Conversation.id (conversations d)))
        (Customer.id customer) (Some platform) (Some (utf8 "open"))
        None None (Some 0) (Some 0) None
        (Some name) profile_image (Some (utcnow env)) in
    modify_db (fun d => set_conversations (conversations d ++ [conversation]) d) ;;;
    print (log_conversation_created (Conversation.id conversation)) ;;;
    _ <- AgentAssignmentService.assign_agent_to_conversation env
           (Conversation.id conversation) ;;
    ret (Conversation.id conversation)
  | Some conversation =>
    let new_name :=
      truthy name
      && negb (pystr_eqb (opt_or (Conversation.profile_name conversation) [])
                         name) in
    let new_image :=
      opt_truthy profile_image
      && negb (pystr_eqb
                 (opt_or (Conversation.profile_image conversation) [])
                 (py_str profile_image)) in
    let write (c : Conversation.t) :=
      (if new_image then Conversation.set_profile_image profile_image c
       else c) in
    let write (c : Conversation.t) :=
      write (if new_name then Conversation.set_profile_name (Some name) c
             else c) in
    when (new_name || new_image)
      (modify_db (update_conversation (Conversation.id conversation) write) ;;;
       print (log_conversation_updated (Conversation.id conversation))) ;;;
    ret (Conversation.id conversation)
  end.

(** Steps 3 and 4: store the customer's message and bump the
    conversation's aggregates, in one commit. *)
Definition store_customer_message (env : Env) (conversation_id : Z)
  (platform message : pystr) : M Message.t :=
  d <- get_db ;;
  let msg :=
    Message.mk (next_id (map Message.id (messages d))) conversation_id
      (Some (utf8 "customer")) None message (Some (utf8 "text"))
      (Some (utf8 "received")) (Some platform) (Some (utcnow env)) in
  modify_db (fun d => set_messages (messages d ++ [msg]) d) ;;;
  modify_db (update_conversation conversation_id
    (fun c =>
       Conversation.set_unread_count
         (Some (match Conversation.unread_count c with
                | Some n => n + 1
                | None => 0 + 1
                end))
         (Conversation.set_last_message_at (Some (utcnow env)) c))) ;;;
  ret msg.

(** Step 5: the reply of the model, stored as a bot message when it is a
    non-empty text.  The history query and the knowledge-base lookup only
    build the prompt; neither writes anything nor raises. *)
Definition auto_reply (env : Env) (conversation_id : Z)
  (platform message : pystr) : M (option pystr) :=
  ai_response <- OllamaChatbot.get_response env message ;;
  when (truthy ai_response)
    (d <- get_db ;;
     let ai_msg :=
       Message.mk (next_id (map Message.id (messages d))) conversation_id
         (Some (utf8 "bot")) None ai_response (Some (utf8 "text"))
         (Some (utf8 "sent")) (Some platform) (Some (utcnow env)) in
     modify_db (fun d => set_messages (messages d ++ [ai_msg]) d) ;;;
     print (log_ai_reply (firstn 50 ai_response))) ;;;
  ret (Some ai_response).

Definition is_some {A} (o : option A) : bool :=
  match o with Some _ => true | None => false end.

(** Steps 1 to 4 of [process_incoming_message], up to the commit of the
    customer's message. *)
Definition intake (env : Env) (platform external_id name message : pystr)
  (profile_image : option pystr) : M (Customer.t * Z * Message.t) :=
  customer <- resolve_customer platform external_id name profile_image ;;
  conversation <- resolve_conversation env customer platform name
                    profile_image ;;
  msg <- store_customer_message env conversation platform message ;;
  ret (customer, conversation, msg).

(** The condition of step 5:
    [BusinessHoursService.should_auto_respond(db)
       or ollama_chatbot.should_auto_respond(message)]. *)
Definition auto_response_decision (env : Env) (d : DB) (message : pystr)
  : Outcome bool :=
  match BusinessHoursService.should_auto_respond env d with
  | Raise e => Raise e
  | Ok should_auto_respond =>
    Ok (should_auto_respond || OllamaChatbot.should_auto_respond message)
  end.

(** Step 6 and the return value. *)
Definition notify_agents (customer : Customer.t) (conversation : Z)
  (msg : Message.t) (platform message : pystr) (ai_response : option pystr)
  : M processed :=
  ConnectionManager.broadcast_to_agents
    (new_customer_message conversation (Customer.id customer)
       (py_str (Customer.name customer))
       (if opt_truthy (Customer.profile_image customer)
        then Customer.profile_image customer else None)
       platform (Message.id msg) message (Message.created_at msg)
       (is_some ai_response))
    None ;;;
  print (log_message_processed platform) ;;;
  ret (mk_processed conversation (is_some ai_response)).

Definition process_incoming_message (env : Env)
  (platform external_id name message : pystr)
  (profile_image : option pystr) : M processed :=
  x <- intake env platform external_id name message profile_image ;;
  let '(customer, conversation, msg) := x in
  d <- get_db ;;
  decision <- lift (auto_response_decision env d message) ;;
  ai_response <-
    (if decision
     then auto_reply env conversation platform message
     else ret None) ;;
  notify_agents customer conversation msg platform message ai_response.

(** The fields [kakao_webhook] reads from the JSON body, for a body that is
    an object whose inner nodes are objects and whose fields are texts:
    each is the text at its path, or [None] when the path is absent or
    holds [null].  ([kakao_body] below is the body such a payload stands
    for, and [kakao_webhook_request] the handler on any body.) *)
Record KakaoPayload := mk_payload {
  p_event_type : option pystr;            (* event.type *)
  p_type : option pystr;                  (* type *)
  p_user_key : option pystr;              (* user_key *)
  p_request_user_id : option pystr;       (* userRequest.user.id *)
  p_event_user_id : option pystr;         (* event.user.id *)
  p_sender_id : option pystr;             (* sender.id *)
  p_content : option pystr;               (* content *)
  p_utterance : option pystr;             (* userRequest.utterance *)
  p_message_text : option pystr;          (* message.text *)
  p_user_name : option pystr;             (* user_name *)
  p_nickname : option pystr;              (* userRequest.user.properties.nickname *)
  p_plusfriend_user_key : option pystr;   (* ...properties.plusfriend_user_key *)
  p_profile_image_url : option pystr      (* ...properties.profileImageUrl *)
}.

Inductive KakaoResponse :=
| ended_response       (* {"status": "ok", "message": "Conversation ended"} *)
| skill_response.      (* what process_kakao_message(payload) builds *)

(** The open conversation of the Kakao customer [user_id]:
    [query(Conversation).join(Customer).filter(...).first()].  The join
    has no [ORDER BY]; the database walks it from the customers found by
    their [external_id] to the conversations of each, so the row returned
    is the first open conversation of the first such customer that has
    one. *)
Definition open_kakao_conversation (d : DB) (user_id : pystr)
  : option Conversation.t :=
  head
    (flat_map
       (fun k =>
          filter (fun c => (Conversation.customer_id c =? Customer.id k)
                           && col_eq (Conversation.status c) (utf8 "open"))
                 (conversations d))
       (filter (fun k => pystr_eqb (Customer.external_id k) user_id
                         && pystr_eqb (Customer.platform k) (utf8 "kakao"))
               (customers d))).

(** The values [kakao_webhook] extracts from the body. *)
Definition event_type (payload : KakaoPayload) : option pystr :=
  if opt_truthy (p_event_type payload) then p_event_type payload
  else p_type payload.

Definition is_leave (payload : KakaoPayload) : bool :=
  col_eq (event_type payload) (utf8 "leave")
  || col_eq (event_type payload) (utf8 "end_chat").

Definition leaving_user_id (payload : KakaoPayload) : pystr :=
  first_truthy [p_user_key payload; p_request_user_id payload;
                p_event_user_id payload] [].

Definition user_message (payload : KakaoPayload) : pystr :=
  first_truthy [p_content payload; p_utterance payload;
                p_message_text payload] [].

Definition user_id (payload : KakaoPayload) : pystr :=
  first_truthy [p_user_key payload; p_request_user_id payload;
                p_sender_id payload] [].

Definition user_name (payload : KakaoPayload) : pystr :=
  first_truthy [p_user_name payload; p_nickname payload;
                p_plusfriend_user_key payload] (utf8 "Kakao User").

Definition profile_image (payload : KakaoPayload) : option pystr :=
  if opt_truthy (p_profile_image_url payload)
  then p_profile_image_url payload else None.

(** [POST /webhook/kakao].  The reply body of an ordinary message is built
    by [process_kakao_message], which has neither a database session nor
    the connection manager; it is kept abstract. *)
Definition kakao_webhook (env : Env) (payload : KakaoPayload)
  : M KakaoResponse :=
  print log_kakao_received ;;;
  if is_leave payload
  then
    let user_id := leaving_user_id payload in
    when (truthy user_id)
      (print (log_kakao_left user_id) ;;;
       d <- get_db ;;
       match open_kakao_conversation d user_id with
       | Some conversation =>
         modify_db (update_conversation (Conversation.id conversation)
                      (Conversation.set_status (Some (utf8 "closed")))) ;;;
         print (log_conversation_closed (Conversation.id conversation)) ;;;
         ConnectionManager.broadcast_to_agents
           (conversation_ended (Conversation.id conversation)) None
       | None => ret tt
       end) ;;;
    ret ended_response
  else
    print (log_kakao_extracted (user_id payload) (user_name payload)
             (user_message payload)) ;;;
    (if truthy (user_id payload) && truthy (user_message payload)
     then
       _ <- process_incoming_message env (utf8 "kakao") (user_id payload)
              (user_name payload) (user_message payload)
              (profile_image payload) ;;
       print log_saved
     else
       print (log_missing_data (truthy (user_id payload))
                               (truthy (user_message payload)))) ;;;
    ret skill_response.

(** ** The handlers on the request body

    [kakao_webhook] above is the handler on a body whose fields are texts.
    The handlers below take the body as [request.json()] gives it, so a
    field may be missing, [null], a number, a list or an object, and an
    inner node may fail to be an object. *)

(** What a request meets beyond this development: the profile lookup of
    the Meta services (the lines it prints and the [name] and
    [profile_pic] it returns), [str] of a value that is not a text, and
    what the database layer makes of a value that is not a text. *)
Record Outside := mkOutside {
  get_user_profile :
    pystr -> pyval -> list LogLine * Outcome (pyval * pyval);
  str_of : pyval -> pystr;
  untyped_pipeline :
    pystr -> pyval -> pyval -> pyval -> pyval -> M processed;
  untyped_close : pyval -> M unit
}.

(** [f"{v}"]. *)
Definition py_format (out : Outside) (v : pyval) : pystr :=
  match v with
  | PStr s => s
  | _ => str_of out v
  end.

(** The call of [process_incoming_message] with the values a handler
    read. *)
Definition process_incoming_values (out : Outside) (env : Env)
  (platform : pystr) (external_id name message profile_image : pyval)
  : M processed :=
  match external_id, name, message, profile_image with
  | PStr external_id, PStr name, PStr message, PNone =>
    process_incoming_message env platform external_id name message None
  | PStr external_id, PStr name, PStr message, PStr profile_image =>
    process_incoming_message env platform external_id name message
      (Some profile_image)
  | _, _, _, _ =>
    untyped_pipeline out platform external_id name message profile_image
  end.

(** The values [kakao_webhook] extracts from the body. *)
Definition kakao_event_type (payload : pyval) : Outcome pyval :=
  or_else (get_in payload [utf8 "event"; utf8 "type"])
          (get_in payload [utf8 "type"]).

Definition is_leave_event (event_type : pyval) : bool :=
  match event_type with
  | PStr s => pystr_eqb s (utf8 "leave") || pystr_eqb s (utf8 "end_chat")
  | _ => false
  end.

Definition kakao_leaving_user_id (payload : pyval) : Outcome pyval :=
  or_else (get_in payload [utf8 "user_key"])
    (or_else (get_in payload [utf8 "userRequest"; utf8 "user"; utf8 "id"])
       (or_else (get_in payload [utf8 "event"; utf8 "user"; utf8 "id"])
          (Ok (PStr [])))).

Definition kakao_user_message (payload : pyval) : Outcome pyval :=
  or_else (get_in payload [utf8 "content"])
    (or_else (get_in payload [utf8 "userRequest"; utf8 "utterance"])
       (or_else (get_in payload [utf8 "message"; utf8 "text"])
          (Ok (PStr [])))).

Definition kakao_user_id (payload : pyval) : Outcome pyval :=
  or_else (get_in payload [utf8 "user_key"])
    (or_else (get_in payload [utf8 "userRequest"; utf8 "user"; utf8 "id"])
       (or_else (get_in payload [utf8 "sender"; utf8 "id"])
          (Ok (PStr [])))).

Definition kakao_user_name (payload : pyval) : Outcome pyval :=
  or_else (get_in payload [utf8 "user_name"])
    (or_else (get_in payload [utf8 "userRequest"; utf8 "user";
                              utf8 "properties"; utf8 "nickname"])
       (or_else (get_in payload [utf8 "userRequest"; utf8 "user";
                                 utf8 "properties";
                                 utf8 "plusfriend_user_key"])
          (Ok (PStr (utf8 "Kakao User"))))).

Definition kakao_profile_image (payload : pyval) : Outcome pyval :=
  or_else (get_in payload [utf8 "userRequest"; utf8 "user";
                           utf8 "properties"; utf8 "profileImageUrl"])
          (Ok PNone).

(** [POST /webhook/kakao] on the request body. *)
Definition kakao_webhook_request (out : Outside) (env : Env)
  (payload : pyval) : M KakaoResponse :=
  print log_kakao_received ;;;
  event_type <- lift (kakao_event_type payload) ;;
  if is_leave_event event_type
  then
    user_id <- lift (kakao_leaving_user_id payload) ;;
    when (truthy_val user_id)
      (print (log_kakao_left (py_format out user_id)) ;;;
       match user_id with
       | PStr user_id =>
         d <- get_db ;;
         match open_kakao_conversation d user_id with
         | Some conversation =>
           modify_db (update_conversation (Conversation.id conversation)
                        (Conversation.set_status (Some (utf8 "closed")))) ;;;
           print (log_conversation_closed (Conversation.id conversation)) ;;;
           ConnectionManager.broadcast_to_agents
             (conversation_ended (Conversation.id conversation)) None
         | None => ret tt
         end
       | _ => untyped_close out user_id
       end) ;;;
    ret ended_response
  else
    user_message <- lift (kakao_user_message payload) ;;
    user_id <- lift (kakao_user_id payload) ;;
    user_name <- lift (kakao_user_name payload) ;;
    profile_image <- lift (kakao_profile_image payload) ;;
    print (log_kakao_extracted (py_format out user_id)
             (py_format out user_name) (py_format out user_message)) ;;;
    (if truthy_val user_id && truthy_val user_message
     then
       _ <- process_incoming_values out env (utf8 "kakao") user_id
              user_name user_message profile_image ;;
       print log_saved
     else
       print (log_missing_data (truthy_val user_id)
                               (truthy_val user_message))) ;;;
    ret skill_response.

(** The body a [KakaoPayload] stands for: every node an object, every
    field its text or [null]. *)
Definition text_or_null (x : option pystr) : pyval :=
  match x with
  | Some s => PStr s
  | None => PNone
  end.

Definition kakao_body (payload : KakaoPayload) : pyval :=
  PDict
    [ (utf8 "type", text_or_null (p_type payload));
      (utf8 "user_key", text_or_null (p_user_key payload));
      (utf8 "user_name", text_or_null (p_user_name payload));
      (utf8 "content", text_or_null (p_content payload));
      (utf8 "event",
       PDict [ (utf8 "type", text_or_null (p_event_type payload));
               (utf8 "user",
                PDict [ (utf8 "id",
                         text_or_null (p_event_user_id payload)) ]) ]);
      (utf8 "sender",
       PDict [ (utf8 "id", text_or_null (p_sender_id payload)) ]);
      (utf8 "message",
       PDict [ (utf8 "text", text_or_null (p_message_text payload)) ]);
      (utf8 "userRequest",
       PDict
         [ (utf8 "utterance", text_or_null (p_utterance payload));
           (utf8 "user",
            PDict
              [ (utf8 "id", text_or_null (p_request_user_id payload));
                (utf8 "properties",
                 PDict
                   [ (utf8 "nickname",
                      text_or_null (p_nickname payload));
                     (utf8 "plusfriend_user_key",
                      text_or_null (p_plusfriend_user_key payload));
                     (utf8 "profileImageUrl",
                      text_or_null (p_profile_image_url payload)) ]) ]) ])
    ].

(** [{"status": "ok"}]. *)
Inductive StatusResponse :=
| status_ok.

Definition print_all (lines : list LogLine) : M unit :=
  for_each print lines.

(** The body of the loops of [instagram_webhook] and [facebook_webhook],
    which differ in the platform they name and the service they ask for
    the profile: one messaging event. *)
Definition messaging_event (out : Outside) (env : Env) (platform : pystr)
  (msg_event : pyval) : M unit :=
  sender_id <- lift (get_in msg_event [utf8 "sender"; utf8 "id"]) ;;
  message_data <- lift (dict_get msg_event (utf8 "message") (PDict [])) ;;
  message_text <- lift (dict_get message_data (utf8 "text") (PStr [])) ;;
  when (truthy_val sender_id && truthy_val message_text)
    (print (log_channel_message platform (py_format out sender_id)
              (py_format out message_text)) ;;;
     print_all (fst (get_user_profile out platform sender_id)) ;;;
     profile <- lift (snd (get_user_profile out platform sender_id)) ;;
     let user_name := fst profile in
     let profile_pic := snd profile in
     print (log_channel_profile platform (py_format out user_name)
              (py_format out profile_pic)) ;;;
     result <- process_incoming_values out env platform sender_id
                 user_name message_text profile_pic ;;
     print (log_channel_processed platform (conversation_id result)
              (ai_responded result))).

Definition messaging_events (out : Outside) (env : Env) (platform : pystr)
  (item : pyval) : M unit :=
  messaging <- lift (dict_get item (utf8 "messaging") (PList [])) ;;
  events <- lift (iterate messaging) ;;
  for_each (messaging_event out env platform) events.

Definition meta_webhook (out : Outside) (env : Env) (platform : pystr)
  (payload : pyval) : M StatusResponse :=
  print (log_channel_received platform) ;;;
  entry <- lift (dict_get payload (utf8 "entry") (PList [])) ;;
  if negb (truthy_val entry)
  then
    print log_no_entry ;;;
    ret status_ok
  else
    items <- lift (iterate entry) ;;
    for_each (messaging_events out env platform) items ;;;
    ret status_ok.

(** [POST /webhook/instagram]. *)
Definition instagram_webhook (out : Outside) (env : Env) (payload : pyval)
  : M StatusResponse :=
  meta_webhook out env (utf8 "instagram") payload.

(** [POST /webhook/facebook]. *)
Definition facebook_webhook (out : Outside) (env : Env) (payload : pyval)
  : M StatusResponse :=
  meta_webhook out env (utf8 "facebook") payload.

(** The default of [from_name]: [payload.get("from", "").split("@")[0]],
    evaluated whether or not it is used; only a text has [split]. *)
Definition local_part (payload : pyval) : Outcome pyval :=
  and_then (dict_get payload (utf8 "from") (PStr []))
    (fun sender =>
       match sender with
       | PStr s => Ok (PStr (before_at s))
       | _ => Raise AttributeError
       end).

(** [payload.get("body", payload.get("text", payload.get("html", "")))]. *)
Definition email_body (payload : pyval) : Outcome pyval :=
  and_then (dict_get payload (utf8 "html") (PStr []))
    (fun html =>
       and_then (dict_get payload (utf8 "text") html)
         (fun text => dict_get payload (utf8 "body") text)).

(** [POST /webhook/email]. *)
Definition email_webhook (out : Outside) (env : Env) (payload : pyval)
  : M StatusResponse :=
  print (log_channel_received (utf8 "email")) ;;;
  sender_email <- lift (dict_get payload (utf8 "from") (PStr [])) ;;
  default_name <- lift (local_part payload) ;;
  sender_name <- lift (dict_get payload (utf8 "from_name") default_name) ;;
  subject <- lift (dict_get payload (utf8 "subject")
                     (PStr (utf8 "제목 없음"))) ;;
  body <- lift (email_body payload) ;;
  when (truthy_val sender_email && truthy_val body)
    (print (log_email_message (py_format out sender_email)
              (py_format out subject)) ;;;
     let message_content :=
       utf8 "[" ++ py_format out subject ++ utf8 "]" ++ [10%N; 10%N]
       ++ py_format out body in
     result <- process_incoming_values out env (utf8 "email") sender_email
                 sender_name (PStr message_content) PNone ;;
     print (log_channel_processed (utf8 "email") (conversation_id result)
              (ai_responded result))) ;;;
  ret status_ok.







(** How a request may change the agents' loads: nobody's count of open
    conversations goes down, and whoever's count went up is an agent of the
    automatic-assignment pool who is still within capacity.  The users
    themselves are as before. *)
Definition loads_within_capacity (w w' : World) : Prop :=
  users (db w') = users (db w)
  /\ forall n,
       AgentAssignmentService.open_chats (db w) n
       <= AgentAssignmentService.open_chats (db w') n
       /\ (AgentAssignmentService.open_chats (db w') n
           <= AgentAssignmentService.open_chats (db w) n
           \/ exists u cap,
                In u (users (db w))
                /\ AgentAssignmentService.in_pool u = true
                /\ User.id u = n
                /\ User.max_concurrent_chats u = Some cap
                /\ AgentAssignmentService.open_chats (db w') n <= cap).

(** How a request may change the state without losing anything: users
    and business hours are as before; the stored messages are as before,
    with new ones after them; customers and conversations keep their rows
    (by primary key, in place), with new ones after them; the registry
    holds the same clients. *)
Definition db_grows (d d' : DB) : Prop :=
  users d' = users d
  /\ business_hours d' = business_hours d
  /\ (exists added, messages d' = messages d ++ added)
  /\ (exists added,
        map Customer.id (customers d')
        = map Customer.id (customers d) ++ added)
  /\ (exists added,
        map Conversation.id (conversations d')
        = map Conversation.id (conversations d) ++ added).

Definition grows (w w' : World) : Prop :=
  db_grows (db w) (db w')
  /\ map fst (active_connections w') = map fst (active_connections w).

End webhook.

(* ================================================================== *)
(** * services/kakao_service.py *)
(* ================================================================== *)

Module kakao_service.

(** The skill response of [process_kakao_message]: the text of its one
    [simpleText] output, and whether the quick reply that asks for an
    agent is attached. *)
Record SkillReply := mk_reply {
  reply_text : pystr;
  offers_agent : bool
}.

Definition greeting : pystr := utf8 "안녕하세요! 무엇을 도와드릴까요?".

Definition no_answer : pystr := utf8 "답변을 생성할 수 없습니다.".

Definition handoff : pystr :=
  utf8 "안녕하세요, 문의 주셔서 감사합니다."
  ++ [10%N]
  ++ utf8 "상담원이 곧 연락드릴 예정이니 잠시만 기다려 주시기 바랍니다. 😊".

(** The text this function reads: [content] or [userRequest.utterance]
    (it does not look at [message.text]). *)
Definition user_message (payload : webhook.KakaoPayload) : pystr :=
  first_truthy [webhook.p_content payload; webhook.p_utterance payload] [].

(** Nothing inside the [try] can raise: the knowledge-base lookup and
    [get_response] both catch their own failures, so the [except] branch is
    never taken. *)
Definition process_kakao_message (env : Env)
  (payload : webhook.KakaoPayload) : M SkillReply :=
  if negb (truthy (user_message payload)) then ret (mk_reply greeting false)
  else if OllamaChatbot.should_auto_respond (user_message payload) then
    ai_response <- OllamaChatbot.get_response env (user_message payload) ;;
    ret (mk_reply (py_or ai_response no_answer) true)
  else ret (mk_reply handoff false).

End kakao_service.

(* ================================================================== *)
(** * Sample data *)
(* ================================================================== *)

Module Sample.

Definition online_agent (id cap : Z) : User.t :=
  User.mk id (utf8 "agent@dreamwish.test") (Some (utf8 "Agent"))
    (Some (utf8 "agent")) (Some true) (Some (utf8 "online")) (Some true)
    (Some cap).

Definition offline_agent (id cap : Z) : User.t :=
  User.mk id (utf8 "away@dreamwish.test") (Some (utf8 "Away"))
    (Some (utf8 "agent")) (Some true) (Some (utf8 "offline")) (Some true)
    (Some cap).

Definition admin (id : Z) : User.t :=
  User.mk id (utf8 "admin@dreamwish.test") (Some (utf8 "Admin"))
    (Some (utf8 "admin")) (Some true) (Some (utf8 "online")) (Some false)
    (Some 5).

Definition conversation (id customer : Z) (channel status : string)
  (assigned : option Z) : Conversation.t :=
  Conversation.mk id customer (Some (utf8 channel)) (Some (utf8 status))
    assigned (match assigned with Some _ => Some 500 | None => None end)
    (Some 0) (Some 0) None None None (Some 400).

(** Two agents online, capacities 5 and 3, with 2 and 3 open conversations;
    conversation 6 waits for an agent. *)
Definition two_agents : DB :=
  mkDB [online_agent 1 5; online_agent 2 3; admin 3; offline_agent 4 5]
       []
       [conversation 1 11 "kakao" "open" (Some 1);
        conversation 2 12 "kakao" "open" (Some 1);
        conversation 3 13 "kakao" "open" (Some 2);
        conversation 4 14 "widget" "open" (Some 2);
        conversation 5 15 "kakao" "open" (Some 2);
        conversation 6 16 "kakao" "open" None;
        conversation 7 17 "kakao" "closed" (Some 2)]
       [] [].

Definition world_of (d : DB) : World := mkWorld d [] [].

Definition healthy : WebSocket := mkWS false [].
Definition dead : WebSocket := mkWS true [].

Definition at_time (day h m : Z) (chat : ChatOutcome) : Env :=
  mkEnv 1000 (fun _ => mkNow day (mkTime h m 0 0)) true chat.

(** A Saturday at noon, with the local model failing. *)
Definition saturday_noon : Env := at_time 5 12 0 chat_raises.

(** A Monday at ten, with the local model answering. *)
Definition monday_morning : Env :=
  at_time 0 10 0 (chat_reply (utf8 "안녕하세요!")).

Definition empty_db : DB := mkDB [] [] [] [] [].

(** The weekly table [create_default_business_hours] writes into an empty
    database. *)
Definition default_hours : DB :=
  db (snd (BusinessHoursService.create_default_business_hours
             (world_of empty_db))).

(** Agent 1 on a healthy connection, agent 2 on a broken one, and a widget
    customer on a broken one. *)
Definition connections : list (pystr * WebSocket) :=
  [(utf8 "agent_1", healthy); (utf8 "agent_2", dead);
   (utf8 "widget_u1", dead)].

(** Kakao bodies: a message sent as [content] by [user_key], and the
    event of the user leaving the chat. *)
Definition kakao_text (user text : pystr) : webhook.KakaoPayload :=
  webhook.mk_payload None None (Some user) None None None (Some text)
    None None None None None None.

Definition kakao_leave (user : pystr) : webhook.KakaoPayload :=
  webhook.mk_payload (Some (utf8 "leave")) None (Some user) None None None
    None None None None None None None.

(** The default weekly table, one agent online with room for five
    conversations, that agent's dashboard connected. *)
Definition office : World :=
  mkWorld
    (mkDB [online_agent 1 5] [] [] [] (business_hours default_hours))
    [(utf8 "agent_1", healthy)] [].

(** Monday at eight in the evening, after closing time. *)
Definition monday_evening (chat : ChatOutcome) : Env := at_time 0 20 0 chat.

(** The Kakao user u1, called Kim, says hello after closing time while the
    model is down: the customer row, the stored message and the state once
    steps 1 to 4 are done. *)
Definition kim : Customer.t :=
  Customer.mk 1 (utf8 "u1") (utf8 "kakao") (Some (utf8 "Kim")) None.

Definition kim_says_hello : Message.t :=
  Message.mk 1 1 (Some (utf8 "customer")) None (utf8 "안녕하세요")
    (Some (utf8 "text")) (Some (utf8 "received")) (Some (utf8 "kakao"))
    (Some 1000).


(** The office after the Kakao user u1 wrote once and then left. *)
Definition after_leave : World :=
  snd (webhook.kakao_webhook monday_morning (kakao_leave (utf8 "u1"))
         (snd (webhook.kakao_webhook monday_morning
                 (kakao_text (utf8 "u1") (utf8 "배송 문의")) office))).



(** The office with Monday's hours mistyped. *)
Definition mistyped_office : World :=
  mkWorld
    (mkDB [online_agent 1 5] [] [] []
       [BusinessHours.mk 1 0 (utf8 "9시") (utf8 "18:00") (Some true)
          (Some (utf8 "Asia/Seoul"))])
    [(utf8 "agent_1", healthy)] [].

Definition mistyped_office_after_intake : World :=
  snd (webhook.intake (monday_evening chat_raises) (utf8 "kakao")
         (utf8 "u1") (utf8 "Kim") (utf8 "안녕하세요") None mistyped_office).

(** A shop open from ten at night to six in the morning. *)
Definition night_shop : DB :=
  mkDB [] [] [] []
    [BusinessHours.mk 1 0 (utf8 "22:00") (utf8 "06:00") (Some true)
       (Some (utf8 "Asia/Seoul"))].

(** A Kakao body whose text comes as [message.text] only. *)
Definition kakao_message_text : webhook.KakaoPayload :=
  webhook.mk_payload None None (Some (utf8 "u1")) None None None None None
    (Some (utf8 "환불 문의")) None None None None.

(** Three agents online with loads 2, 1 and 1: the second and the third
    tie for the least load. *)
Definition three_agents : DB :=
  mkDB [online_agent 1 5; online_agent 2 4; online_agent 3 5]
       []
       [conversation 1 11 "kakao" "open" (Some 1);
        conversation 2 12 "kakao" "open" (Some 1);
        conversation 3 13 "kakao" "open" (Some 2);
        conversation 4 14 "kakao" "open" (Some 3);
        conversation 5 15 "kakao" "open" None]
       [] [].

(** Three agents (the second on a broken connection), a widget customer
    and an agent-like id that lacks the underscore. *)
Definition crowd : list (pystr * WebSocket) :=
  [(utf8 "agent_1", healthy); (utf8 "agent_2", dead);
   (utf8 "widget_u1", healthy); (utf8 "agent_3", healthy);
   (utf8 "agent7", healthy)].


(** A deployment without access tokens, where the profile lookup gives
    the default name of the platform and no picture, in front of a
    database layer that rejects a value that is not a text. *)
Definition strict : webhook.Outside :=
  webhook.mkOutside
    (fun platform _ =>
       ([],
        Ok (PStr (if pystr_eqb platform (utf8 "instagram")
                  then utf8 "Instagram User" else utf8 "Facebook User"),
            PNone)))
    (fun v => match v with
              | PNone => utf8 "None"
              | PBool true => utf8 "True"
              | PBool false => utf8 "False"
              | _ => utf8 "..."
              end)
    (fun _ _ _ _ _ => raise TypeError)
    (fun _ => raise TypeError).



Definition meta_body (events : list pyval) : pyval :=
  PDict [(utf8 "object", PStr (utf8 "page"));
         (utf8 "entry",
          PList [PDict [(utf8 "id", PStr (utf8 "1001"));
                        (utf8 "messaging", PList events)]])].

Definition text_event (sender text : pystr) : pyval :=
  PDict [(utf8 "sender", PDict [(utf8 "id", PStr sender)]);
         (utf8 "message", PDict [(utf8 "mid", PStr (utf8 "m1"));
                                 (utf8 "text", PStr text)])].

Definition attachment_event (sender : pystr) : pyval :=
  PDict [(utf8 "sender", PDict [(utf8 "id", PStr sender)]);
         (utf8 "message",
          PDict [(utf8 "mid", PStr (utf8 "m2"));
                 (utf8 "attachments", PList [PDict []])])].

Definition mail (sender subject body : pystr) : pyval :=
  PDict [(utf8 "from", PStr sender); (utf8 "subject", PStr subject);
         (utf8 "body", PStr body)].


End Sample.

Ltac run :=
  unfold bind, ret, lift, raise, get_db, modify_db, print, when; simpl.

(* ================================================================== *)
(** * Basic facts *)
(* ================================================================== *)

Lemma pystr_eqb_eq (a b : pystr) : pystr_eqb a b = true <-> a = b.
Proof.
  revert b. induction a as [|x a IH]; intros [|y b]; simpl;
    try (split; congruence).
  rewrite andb_true_iff, N.eqb_eq, IH. split.
  - intros [-> ->]. reflexivity.
  - intros H. inversion H. auto.
Qed.

Lemma pystr_eqb_refl (a : pystr) : pystr_eqb a a = true.
Proof. now apply pystr_eqb_eq. Qed.

Lemma col_eq_Some (c : option pystr) (v : pystr) :
  col_eq c v = true <-> c = Some v.
Proof.
  destruct c as [s|]; simpl.
  - rewrite pystr_eqb_eq. split; congruence.
  - split; discriminate.
Qed.



(** ** The stable sort *)

Section StableSortFacts.
Variable A : Type.
Variable key : A -> Z.

Lemma insert_by_perm (x : A) (l : list A) :
  Permutation (insert_by key x l) (x :: l).
Proof.
  induction l as [|y l IH]; simpl.
  - apply Permutation_refl.
  - destruct (key x <=? key y).
    + apply Permutation_refl.
    + eapply perm_trans; [apply perm_skip, IH | apply perm_swap].
Qed.

Lemma sort_by_perm (l : list A) : Permutation (sort_by key l) l.
Proof.
  induction l as [|x l IH]; simpl.
  - apply perm_nil.
  - eapply perm_trans; [apply insert_by_perm | apply perm_skip, IH].
Qed.





End StableSortFacts.

(** ** Rows and their keys *)

Lemma find_update_row {A} (key : A -> Z) (k : Z) (f : A -> A)
  (rows : list A) (r : A) :
  find (fun x => key x =? k) rows = Some r ->
  key (f r) = k ->
  find (fun x => key x =? k) (update_row key k f rows) = Some (f r).
Proof.
  intros Hfind Hkey. induction rows as [|x rows IH]; simpl in *.
  - discriminate.
  - destruct (key x =? k) eqn:E.
    + injection Hfind as ->. simpl. rewrite Hkey, Z.eqb_refl. reflexivity.
    + simpl. rewrite E. now apply IH.
Qed.

Lemma update_row_length {A} (key : A -> Z) (k : Z) (f : A -> A)
  (rows : list A) :
  List.length (update_row key k f rows) = List.length rows.
Proof.
  induction rows as [|x rows IH]; simpl.
  - reflexivity.
  - destruct (key x =? k); simpl; congruence.
Qed.

Lemma find_id (cid : Z) (rows : list Conversation.t) (c : Conversation.t) :
  find (fun x => Conversation.id x =? cid) rows = Some c ->
  In c rows /\ Conversation.id c = cid.
Proof.
  intros H. apply find_some in H. now rewrite Z.eqb_eq in H.
Qed.

(** ** The availability query *)

Module AssignmentFacts.
Import AgentAssignmentService.


Lemma in_annotate (d : DB) (u : User.t) (e : entry) :
  In e (annotate d u) <->
  agent e = u /\ current_load e = open_chats d (User.id u)
  /\ User.max_concurrent_chats u = Some (capacity e)
  /\ current_load e < capacity e.
Proof.
  unfold annotate. destruct (User.max_concurrent_chats u) as [cap|].
  - destruct (open_chats d (User.id u) <? cap) eqn:E.
    + apply Z.ltb_lt in E. simpl. split.
      * intros [<-|[]]. simpl. auto.
      * intros (Ha & Hl & Hc & _). left. destruct e as [a l c]. simpl in *.
        subst. congruence.
    + apply Z.ltb_ge in E. simpl. split; [tauto|].
      intros (_ & Hl & Hc & Hlt). inversion Hc. lia.
  - simpl. split; [tauto|]. intros (_ & _ & Hc & _). discriminate.
Qed.

Lemma in_available_agents_spec (d : DB) (e : entry) :
  In e (available_agents_spec d) <->
  In (agent e) (users d) /\ in_pool (agent e) = true
  /\ current_load e = open_chats d (User.id (agent e))
  /\ User.max_concurrent_chats (agent e) = Some (capacity e)
  /\ current_load e < capacity e.
Proof.
  unfold available_agents_spec. rewrite in_flat_map. split.
  - intros (u & Hu & He). apply filter_In in Hu. apply in_annotate in He.
    destruct He as (<- & ?). tauto.
  - intros (Hin & Hp & H). exists (agent e). split.
    + apply filter_In. tauto.
    + apply in_annotate. tauto.
Qed.

Lemma available_loop_ok (d : DB) (agents : list User.t)
  (acc res : list entry) :
  available_loop d agents acc = Ok res ->
  res = acc ++ flat_map (annotate d) agents.
Proof.
  revert acc. induction agents as [|a agents IH]; simpl; intros acc H.
  - inversion H. now rewrite app_nil_r.
  - unfold annotate at 1.
    destruct (User.max_concurrent_chats a) as [cap|]; [|discriminate].
    destruct (open_chats d (User.id a) <? cap).
    + apply IH in H. rewrite H, <- app_assoc. reflexivity.
    + now apply IH in H.
Qed.

Lemma available_loop_total (d : DB) (agents : list User.t)
  (acc : list entry) :
  (forall u, In u agents -> User.max_concurrent_chats u <> None) ->
  available_loop d agents acc = Ok (acc ++ flat_map (annotate d) agents).
Proof.
  revert acc. induction agents as [|a agents IH]; simpl; intros acc H.
  - now rewrite app_nil_r.
  - unfold annotate at 1.
    destruct (User.max_concurrent_chats a) as [cap|] eqn:E.
    + destruct (open_chats d (User.id a) <? cap).
      * rewrite IH by auto. now rewrite <- app_assoc.
      * now rewrite IH by auto.
    + exfalso. apply (H a); auto.
Qed.

(** Without a capacity the comparison raises, whatever else is in the
    pool. *)
Lemma available_loop_raises (d : DB) (agents : list User.t)
  (acc : list entry) (e : exn) :
  available_loop d agents acc = Raise e ->
  e = TypeError /\
  exists u, In u agents /\ User.max_concurrent_chats u = None.
Proof.
  revert acc. induction agents as [|a agents IH]; simpl; intros acc H.
  - discriminate.
  - destruct (User.max_concurrent_chats a) as [cap|] eqn:E.
    + destruct (open_chats d (User.id a) <? cap);
        apply IH in H; destruct H as (He & u & Hu & Hn);
        (split; [exact He | exists u; auto]).
    + inversion H. split; [reflexivity | exists a; auto].
Qed.

Lemma get_available_agents_ok (d : DB) (l : list entry) :
  get_available_agents d = Ok l ->
  l = sort_by current_load (available_agents_spec d).
Proof.
  unfold get_available_agents, available_agents_spec.
  destruct (available_loop d (filter in_pool (users d)) []) eqn:E;
    [|discriminate].
  intros H. inversion H. apply available_loop_ok in E. now subst.
Qed.

Lemma get_available_agents_total (d : DB) :
  (forall u, In u (users d) -> in_pool u = true ->
             User.max_concurrent_chats u <> None) ->
  get_available_agents d
  = Ok (sort_by current_load (available_agents_spec d)).
Proof.
  intros H. unfold get_available_agents, available_agents_spec.
  rewrite available_loop_total; [reflexivity|].
  intros u Hu. apply filter_In in Hu. now apply H.
Qed.

(** A pool agent without a capacity makes the query raise, wherever it
    stands in the pool. *)
Lemma available_loop_none (d : DB) (agents : list User.t) (u : User.t)
  (acc : list entry) :
  In u agents -> User.max_concurrent_chats u = None ->
  available_loop d agents acc = Raise TypeError.
Proof.
  intros Hin Hnone. revert acc.
  induction agents as [|a agents IH]; intros acc; simpl.
  - destruct Hin.
  - destruct (User.max_concurrent_chats a) as [cap|] eqn:E; [|reflexivity].
    destruct Hin as [->|Hin]; [congruence|].
    destruct (open_chats d (User.id a) <? cap); now apply IH.
Qed.

Lemma get_available_agents_none (d : DB) (u : User.t) :
  In u (users d) -> in_pool u = true -> User.max_concurrent_chats u = None ->
  get_available_agents d = Raise TypeError.
Proof.
  intros Hin Hp Hnone. unfold get_available_agents.
  rewrite (@available_loop_none d (filter in_pool (users d)) u []);
    [reflexivity| |exact Hnone].
  apply filter_In. auto.
Qed.





End AssignmentFacts.

(* ================================================================== *)
(** * Agent assignment *)
(* ================================================================== *)

Module AssignmentClaims.
Import AgentAssignmentService AssignmentFacts.

(** What automatic assignment writes on a conversation. *)
Lemma assigned_row_id (now : Z) (a : Z) (c : Conversation.t) :
  Conversation.id
    (Conversation.set_status (Some (utf8 "open"))
       (Conversation.set_assigned_at (Some now)
          (Conversation.set_assigned_agent_id (Some a) c)))
  = Conversation.id c.
Proof. reflexivity. Qed.

(** C6.  Every entry the availability computation returns is a pool agent
    whose count of open conversations is strictly below its
    [max_concurrent_chats]; and automatic assignment of an unassigned
    conversation gives it to the first of these entries (or to nobody when
    there is none), so it never picks an agent at or over capacity. *)
Theorem auto_assignment_below_capacity (d : DB) (l : list entry) :
  get_available_agents d = Ok l ->
  Forall (fun e =>
            In (agent e) (users d) /\ in_pool (agent e) = true
            /\ current_load e = open_chats d (User.id (agent e))
            /\ User.max_concurrent_chats (agent e) = Some (capacity e)
            /\ current_load e < capacity e) l
  /\ forall (env : Env) (cid : Z) (w : World) (c : Conversation.t),
       db w = d ->
       find (fun x => Conversation.id x =? cid) (conversations d) = Some c ->
       Conversation.assigned_agent_id c = None ->
       match l with
       | [] =>
         assign_agent_to_conversation env cid w
         = (Ok false,
            mkWorld d (active_connections w) (stdout w ++ [log_no_agent cid]))
       | e :: _ =>
         exists w',
           assign_agent_to_conversation env cid w = (Ok true, w')
           /\ find (fun x => Conversation.id x =? cid)
                   (conversations (db w'))
              = Some (Conversation.set_status (Some (utf8 "open"))
                        (Conversation.set_assigned_at (Some (utcnow env))
                           (Conversation.set_assigned_agent_id
                              (Some (User.id (agent e))) c)))
       end.
Proof.
  intros Hl. split.
  - apply get_available_agents_ok in Hl. subst l.
    eapply Permutation_Forall; [apply Permutation_sym, sort_by_perm|].
    apply Forall_forall. intros e He. now apply in_available_agents_spec.
  - intros env cid w c Hd Hfind Hnone. subst d.
    unfold assign_agent_to_conversation. run.
    rewrite Hfind, Hnone, Hl.
    destruct l as [|e l']; simpl.
    + reflexivity.
    + eexists. split; [reflexivity|]. simpl.
      destruct (find_id _ _ Hfind) as [_ Hid]. rewrite Hid.
      exact (find_update_row Conversation.id
               (fun x =>
                  Conversation.set_status (Some (utf8 "open"))
                    (Conversation.set_assigned_at (Some (utcnow env))
                       (Conversation.set_assigned_agent_id
                          (Some (User.id (agent e))) x)))
               _ Hfind Hid).
Qed.

Lemma auto_assignment_below_capacity_witness :
  Forall (fun e =>
            In (agent e) (users Sample.two_agents)
            /\ in_pool (agent e) = true
            /\ current_load e = open_chats Sample.two_agents
                                  (User.id (agent e))
            /\ User.max_concurrent_chats (agent e) = Some (capacity e)
            /\ current_load e < capacity e)
         [mk_entry (Sample.online_agent 1 5) 2 5]
  /\ exists w',
       assign_agent_to_conversation Sample.saturday_noon 6
         (Sample.world_of Sample.two_agents) = (Ok true, w')
       /\ find (fun x => Conversation.id x =? 6) (conversations (db w'))
          = Some (Conversation.set_status (Some (utf8 "open"))
                    (Conversation.set_assigned_at (Some 1000)
                       (Conversation.set_assigned_agent_id (Some 1)
                          (Sample.conversation 6 16 "kakao" "open" None)))).
Proof.
  pose proof (auto_assignment_below_capacity Sample.two_agents
                (l := [mk_entry (Sample.online_agent 1 5) 2 5]) eq_refl)
    as [H1 H2].
  split; [exact H1|].
  exact (H2 Sample.saturday_noon 6 (Sample.world_of Sample.two_agents)
            (Sample.conversation 6 16 "kakao" "open" None)
            eq_refl eq_refl eq_refl).
Defined.

(** When a pool agent has no capacity the query raises and assignment
    writes nothing. *)
Lemma get_available_agents_raises (d : DB) (e : exn) :
  get_available_agents d = Raise e ->
  e = TypeError /\
  exists u, In u (users d) /\ in_pool u = true
            /\ User.max_concurrent_chats u = None.
Proof.
  unfold get_available_agents.
  destruct (available_loop d (filter in_pool (users d)) []) eqn:E;
    [discriminate|].
  intros H. inversion H; subst. apply available_loop_raises in E.
  destruct E as (He & u & Hu & Hn). apply filter_In in Hu.
  split; [exact He | exists u; tauto].
Qed.




Lemma assign_returns_early (env : Env) (cid : Z) (w : World)
  (c : Conversation.t) (a : Z) :
  find (fun x => Conversation.id x =? cid) (conversations (db w)) = Some c ->
  Conversation.assigned_agent_id c = Some a ->
  assign_agent_to_conversation env cid w = (Ok true, w).
Proof.
  intros Hfind Ha. unfold assign_agent_to_conversation. run.
  now rewrite Hfind, Ha.
Qed.

(** C8.  On a conversation that already has an assigned agent the
    assignment operation returns success and leaves the whole state as it
    was: assigned agent, assignment time and status included. *)
Theorem assignment_idempotent (env : Env) (cid : Z) (w : World)
  (c : Conversation.t) (a : Z) :
  find (fun x => Conversation.id x =? cid) (conversations (db w)) = Some c ->
  Conversation.assigned_agent_id c = Some a ->
  assign_agent_to_conversation env cid w = (Ok true, w)
  /\ find (fun x => Conversation.id x =? cid)
          (conversations (db (snd (assign_agent_to_conversation env cid w))))
     = Some c.
Proof.
  intros Hfind Ha.
  rewrite (assign_returns_early env cid w Hfind Ha). auto.
Qed.

Lemma assignment_idempotent_witness :
  assign_agent_to_conversation Sample.saturday_noon 3
    (Sample.world_of Sample.two_agents)
  = (Ok true, Sample.world_of Sample.two_agents)
  /\ find (fun x => Conversation.id x =? 3)
          (conversations
             (db (snd (assign_agent_to_conversation Sample.saturday_noon 3
                         (Sample.world_of Sample.two_agents)))))
     = Some (Sample.conversation 3 13 "kakao" "open" (Some 2)).
Proof.
  exact (assignment_idempotent Sample.saturday_noon 3
           (Sample.world_of Sample.two_agents)
           (c := Sample.conversation 3 13 "kakao" "open" (Some 2))
           eq_refl eq_refl).
Defined.

(** A second call after a successful first one is such a call: whatever the
    clock says by then, it changes nothing. *)
Lemma assignment_twice (env env' : Env) (cid : Z) (w w' : World) :
  assign_agent_to_conversation env cid w = (Ok true, w') ->
  assign_agent_to_conversation env' cid w' = (Ok true, w').
Proof.
  unfold assign_agent_to_conversation at 1. run.
  destruct (find (fun x => Conversation.id x =? cid)
                 (conversations (db w))) as [c|] eqn:Hfind;
    [|discriminate].
  destruct (Conversation.assigned_agent_id c) as [a|] eqn:Ha.
  - intros H. inversion H; subst.
    eapply assign_returns_early; eassumption.
  - destruct (get_available_agents (db w)) as [[|e l]|]; simpl;
      try discriminate.
    intros H. inversion H; subst. clear H.
    destruct (find_id _ _ Hfind) as [_ Hid].
    eapply assign_returns_early with (a := User.id (agent e)).
    + simpl. rewrite Hid.
      exact (find_update_row Conversation.id
               (fun x =>
                  Conversation.set_status (Some (utf8 "open"))
                    (Conversation.set_assigned_at (Some (utcnow env))
                       (Conversation.set_assigned_agent_id
                          (Some (User.id (agent e))) x)))
               _ Hfind Hid).
    + reflexivity.
Qed.

(** Existence of rows, as the two guards of [reassign_agent] see it. *)
Lemma find_conversation_none (cid : Z) (d : DB) :
  find (fun x => Conversation.id x =? cid) (conversations d) = None <->
  ~ exists c, In c (conversations d) /\ Conversation.id c = cid.
Proof.
  split.
  - intros H (c & Hin & Hid).
    apply (find_none _ _ H) in Hin. apply Z.eqb_neq in Hin. contradiction.
  - intros H.
    destruct (find (fun x => Conversation.id x =? cid) (conversations d))
      as [c|] eqn:E; [|reflexivity].
    exfalso. apply H. exists c. now apply find_id.
Qed.

Lemma find_agent_none (n : Z) (d : DB) :
  find (fun u => (User.id u =? n) && col_eq (User.role u) (utf8 "agent"))
       (users d) = None <->
  ~ exists u, In u (users d) /\ User.id u = n
              /\ User.role u = Some (utf8 "agent").
Proof.
  split.
  - intros H (u & Hin & Hid & Hrole).
    apply (find_none _ _ H) in Hin.
    apply andb_false_iff in Hin. destruct Hin as [Hin|Hin].
    + apply Z.eqb_neq in Hin. contradiction.
    + apply col_eq_Some in Hrole. congruence.
  - intros H.
    destruct (find (fun u => (User.id u =? n)
                             && col_eq (User.role u) (utf8 "agent"))
                   (users d)) as [u|] eqn:E; [|reflexivity].
    exfalso. apply H. exists u. apply find_some in E.
    rewrite andb_true_iff, Z.eqb_eq, col_eq_Some in E. tauto.
Qed.

(** C10.  Reassigning conversation [cid] to user [n] returns false and
    leaves the state untouched unless the conversation exists and a user
    with id [n] and role agent exists; when both exist it returns true and
    overwrites the assigned agent and the assignment time, whatever the
    agent's status, load or capacity. *)
Theorem reassign_needs_agent (env : Env) (cid n : Z) (w : World) :
  (~ ((exists c, In c (conversations (db w)) /\ Conversation.id c = cid)
      /\ (exists u, In u (users (db w)) /\ User.id u = n
                    /\ User.role u = Some (utf8 "agent"))) ->
   reassign_agent env cid n w = (Ok false, w))
  /\ (forall c,
        find (fun x => Conversation.id x =? cid) (conversations (db w))
        = Some c ->
        (exists u, In u (users (db w)) /\ User.id u = n
                   /\ User.role u = Some (utf8 "agent")) ->
        exists w',
          reassign_agent env cid n w = (Ok true, w')
          /\ find (fun x => Conversation.id x =? cid)
                  (conversations (db w'))
             = Some (Conversation.set_assigned_at (Some (utcnow env))
                       (Conversation.set_assigned_agent_id (Some n) c))
          /\ users (db w') = users (db w)
          /\ active_connections w' = active_connections w).
Proof.
  split.
  - intros Hno. unfold reassign_agent. run.
    destruct (find (fun x => Conversation.id x =? cid)
                   (conversations (db w))) as [c|] eqn:Hc; [|reflexivity].
    destruct (find (fun u => (User.id u =? n)
                             && col_eq (User.role u) (utf8 "agent"))
                   (users (db w))) as [u|] eqn:Hu; [|reflexivity].
    exfalso. apply Hno. split.
    + exists c. now apply find_id.
    + exists u. apply find_some in Hu.
      rewrite andb_true_iff, Z.eqb_eq, col_eq_Some in Hu. tauto.
  - intros c Hc Hagent. unfold reassign_agent. run. rewrite Hc.
    destruct (find (fun u => (User.id u =? n)
                             && col_eq (User.role u) (utf8 "agent"))
                   (users (db w))) as [u|] eqn:Hu.
    + eexists. split; [reflexivity|]. simpl.
      destruct (find_id _ _ Hc) as [_ Hid]. rewrite Hid.
      split; [|split; reflexivity].
      exact (find_update_row Conversation.id
               (fun x =>
                  Conversation.set_assigned_at (Some (utcnow env))
                    (Conversation.set_assigned_agent_id (Some n) x))
               _ Hc Hid).
    + exfalso. apply find_agent_none in Hu. contradiction.
Qed.

(** Conversation 6 cannot be handed to the administrator (user 3), and is
    handed to agent 2 although that agent already holds three of three
    conversations. *)
Lemma reassign_needs_agent_witness :
  reassign_agent Sample.saturday_noon 6 3 (Sample.world_of Sample.two_agents)
  = (Ok false, Sample.world_of Sample.two_agents)
  /\ exists w',
       reassign_agent Sample.saturday_noon 6 2
         (Sample.world_of Sample.two_agents) = (Ok true, w')
       /\ find (fun x => Conversation.id x =? 6) (conversations (db w'))
          = Some (Conversation.set_assigned_at (Some 1000)
                    (Conversation.set_assigned_agent_id (Some 2)
                       (Sample.conversation 6 16 "kakao" "open" None)))
       /\ users (db w') = users Sample.two_agents
       /\ active_connections w' = [].
Proof.
  split.
  - apply (proj1 (reassign_needs_agent Sample.saturday_noon 6 3
                    (Sample.world_of Sample.two_agents))).
    intros [_ (u & Hin & Hid & Hrole)]. simpl in Hin.
    destruct Hin as [<-|[<-|[<-|[<-|[]]]]]; discriminate.
  - apply (proj2 (reassign_needs_agent Sample.saturday_noon 6 2
                    (Sample.world_of Sample.two_agents))
             (Sample.conversation 6 16 "kakao" "open" None) eq_refl).
    exists (Sample.online_agent 2 3). simpl. auto.
Defined.

End AssignmentClaims.

(* ================================================================== *)
(** * Business hours *)
(* ================================================================== *)

Module HoursClaims.
Import BusinessHoursService.

(** The lookup only sees active rows. *)
Lemma no_active_row (day : Z) (rows : list BusinessHours.t) :
  (forall b, In b rows -> BusinessHours.day_of_week b = day ->
             col_true (BusinessHours.is_active b) = false) ->
  find (fun b => (BusinessHours.day_of_week b =? day)
                 && col_true (BusinessHours.is_active b)) rows = None.
Proof.
  intros H. induction rows as [|b rows IH]; simpl.
  - reflexivity.
  - destruct (BusinessHours.day_of_week b =? day) eqn:E; simpl.
    + apply Z.eqb_eq in E. rewrite (H b (or_introl eq_refl) E).
      apply IH. intros b' Hb'. apply H. now right.
    + apply IH. intros b' Hb'. apply H. now right.
Qed.

(** C3 (as the code behaves).  A weekday whose rows all have the active
    flag off is looked up with [is_active == True], found to have no row,
    and reported open at every time of day: the same answer as for a
    weekday with no row at all. *)
Theorem inactive_day_reported_open (env : Env) (d : DB) (tz : pystr) :
  (forall b, In b (business_hours d) ->
             BusinessHours.day_of_week b = weekday (now env tz) ->
             col_true (BusinessHours.is_active b) = false) ->
  is_business_hours env d tz = Ok true.
Proof.
  intros H. unfold is_business_hours. now rewrite no_active_row.
Qed.

(** With the default table, Saturday at noon counts as business hours
    although Saturday's row is inactive. *)
Lemma inactive_day_reported_open_witness :
  In (BusinessHours.mk 6 5 (utf8 "00:00") (utf8 "00:00") (Some false)
        (Some (utf8 "Asia/Seoul")))
     (business_hours Sample.default_hours)
  /\ is_business_hours Sample.saturday_noon Sample.default_hours
       (utf8 "Asia/Seoul") = Ok true.
Proof.
  split.
  - vm_compute. tauto.
  - apply (inactive_day_reported_open Sample.saturday_noon
             Sample.default_hours (utf8 "Asia/Seoul")).
    intros b Hb Hday. vm_compute in Hb.
    destruct Hb as [<-|[<-|[<-|[<-|[<-|[<-|[<-|[]]]]]]]];
      first [reflexivity | discriminate Hday].
Defined.

(** An active row does gate: with the default table, Monday is open from
    09:00 to 18:00, both ends included, and closed outside. *)
Lemma active_day_window (h m : Z) (chat : ChatOutcome) :
  is_business_hours (Sample.at_time 0 h m chat) Sample.default_hours
    (utf8 "Asia/Seoul")
  = Ok (time_le (mkTime 9 0 0 0) (mkTime h m 0 0)
        && time_le (mkTime h m 0 0) (mkTime 18 0 0 0)).
Proof.
  unfold is_business_hours. simpl.
  destruct (time_le (mkTime 9 0 0 0) (mkTime h m 0 0)
            && time_le (mkTime h m 0 0) (mkTime 18 0 0 0)); reflexivity.
Qed.

End HoursClaims.

(* ================================================================== *)
(** * The connection registry *)
(* ================================================================== *)

Module RegistryClaims.
Import ConnectionManager.

Lemma store_same (k : pystr) (ws : WebSocket)
  (conns : list (pystr * WebSocket)) :
  lookup k conns = Some ws -> store k ws conns = conns.
Proof.
  induction conns as [|[k' ws'] conns IH]; simpl.
  - discriminate.
  - destruct (pystr_eqb k' k).
    + now intros [= ->].
    + intros H. now rewrite IH.
Qed.

Lemma lookup_store (k : pystr) (ws : WebSocket)
  (conns : list (pystr * WebSocket)) :
  lookup k (store k ws conns) = Some ws.
Proof.
  induction conns as [|[k' ws'] conns IH]; simpl.
  - now rewrite pystr_eqb_refl.
  - destruct (pystr_eqb k' k) eqn:E; simpl; now rewrite E.
Qed.

Lemma store_keys (k : pystr) (ws ws' : WebSocket)
  (conns : list (pystr * WebSocket)) :
  lookup k conns = Some ws ->
  map fst (store k ws' conns) = map fst conns.
Proof.
  induction conns as [|[k' x] conns IH]; simpl.
  - discriminate.
  - destruct (pystr_eqb k' k); simpl.
    + reflexivity.
    + intros H. now rewrite IH.
Qed.

(** Sending to a client that is not registered does nothing. *)
Lemma send_to_unregistered (message : Payload) (client_id : pystr)
  (w : World) :
  lookup client_id (active_connections w) = None ->
  send_personal_message message client_id w = (Ok tt, w).
Proof.
  intros H. unfold send_personal_message, get_connections. run.
  now rewrite H.
Qed.

(** Sending to a registered healthy client delivers. *)
Lemma send_to_healthy (message : Payload) (client_id : pystr)
  (w : World) (ws : WebSocket) :
  lookup client_id (active_connections w) = Some ws ->
  broken ws = false ->
  send_personal_message message client_id w
  = (Ok tt,
     mkWorld (db w)
       (store client_id (mkWS false (delivered ws ++ [message]))
          (active_connections w))
       (stdout w)).
Proof.
  intros H Hb. unfold send_personal_message, get_connections, send_on. run.
  rewrite H. unfold send_on. rewrite H. unfold send_text. now rewrite Hb.
Qed.

(** C9 (as the code behaves).  [send_personal_message] has no handler of
    its own: on a registered client whose connection is broken the
    exception of [send_text] reaches the caller, and nothing is logged.
    The client stays registered. *)
Theorem send_personal_message_propagates (message : Payload)
  (client_id : pystr) (w : World) (ws : WebSocket) :
  lookup client_id (active_connections w) = Some ws ->
  broken ws = true ->
  send_personal_message message client_id w = (Raise WebSocketError, w).
Proof.
  intros H Hb. unfold send_personal_message, get_connections, send_on. run.
  rewrite H. unfold send_on. rewrite H. unfold send_text. rewrite Hb.
  rewrite (store_same _ _ H). now destruct w.
Qed.

Lemma send_personal_message_propagates_witness :
  send_personal_message (text_message (utf8 "hello")) (utf8 "widget_u1")
    (mkWorld Sample.empty_db Sample.connections [])
  = (Raise WebSocketError, mkWorld Sample.empty_db Sample.connections []).
Proof.
  exact (send_personal_message_propagates (text_message (utf8 "hello"))
           (utf8 "widget_u1")
           (mkWorld Sample.empty_db Sample.connections [])
           (ws := Sample.dead) eq_refl eq_refl).
Defined.

(** The two broadcasts do have a handler around each send: they never
    raise, and they leave the database alone. *)
Lemma try_send_ok (message : Payload) (client_id : pystr) (line : LogLine)
  (w : World) :
  exists w',
    try_except (send_on client_id message) line w = (Ok tt, w')
    /\ db w' = db w
    /\ map fst (active_connections w') = map fst (active_connections w).
Proof.
  unfold try_except, send_on.
  destruct (lookup client_id (active_connections w)) as [ws|] eqn:E.
  - unfold send_text. destruct (broken ws) eqn:Hb.
    + rewrite (store_same _ _ E). eexists. split; [reflexivity|]. auto.
    + eexists. split; [reflexivity|]. split; [reflexivity|]. simpl.
      eapply store_keys, E.
  - eexists. split; [reflexivity|]. auto.
Qed.

Lemma broadcast_to_agents_loop_ok (message : Payload)
  (exclude_client : option pystr) (ids : list pystr) (w : World) :
  exists w',
    broadcast_to_agents_loop message exclude_client ids w = (Ok tt, w')
    /\ db w' = db w
    /\ map fst (active_connections w') = map fst (active_connections w).
Proof.
  revert w. induction ids as [|client_id ids IH]; intros w; simpl.
  - exists w. auto.
  - unfold bind, when.
    destruct (negb (is_excluded client_id exclude_client)
              && startswith client_id (utf8 "agent_")).
    + destruct (try_send_ok message client_id
                  (log_agent_broadcast_error client_id) w)
        as (w1 & -> & Hdb & Hk).
      destruct (IH w1) as (w2 & -> & Hdb2 & Hk2).
      exists w2. split; [reflexivity|]. split; congruence.
    + unfold ret. apply IH.
Qed.

Lemma broadcast_to_agents_ok (message : Payload)
  (exclude_client : option pystr) (w : World) :
  exists w',
    broadcast_to_agents message exclude_client w = (Ok tt, w')
    /\ db w' = db w
    /\ map fst (active_connections w') = map fst (active_connections w).
Proof.
  unfold broadcast_to_agents, get_connections, bind.
  apply broadcast_to_agents_loop_ok.
Qed.

(** On the sample connections the broadcast to agents delivers to agent 1,
    prints the failure of agent 2, skips the widget and returns normally. *)
Lemma broadcast_isolates_failures :
  broadcast_to_agents (text_message (utf8 "hello")) None
    (mkWorld Sample.empty_db Sample.connections [])
  = (Ok tt,
     mkWorld Sample.empty_db
       [(utf8 "agent_1", mkWS false [text_message (utf8 "hello")]);
        (utf8 "agent_2", Sample.dead);
        (utf8 "widget_u1", Sample.dead)]
       [log_agent_broadcast_error (utf8 "agent_2")]).
Proof. vm_compute. reflexivity. Qed.

End RegistryClaims.

(* ================================================================== *)
(** * The auto-response decision *)
(* ================================================================== *)

Module DecisionClaims.
Import webhook.






End DecisionClaims.

(* ================================================================== *)
(** * The inbound message pipeline *)
(* ================================================================== *)

Module PipelineClaims.
Import webhook.




(** Step 6 always completes. *)
Lemma notify_agents_ok (customer : Customer.t) (conversation : Z)
  (msg : Message.t) (platform message : pystr) (ai : option pystr)
  (w : World) :
  exists w',
    notify_agents customer conversation msg platform message ai w
    = (Ok (mk_processed conversation (is_some ai)), w')
    /\ db w' = db w
    /\ map fst (active_connections w') = map fst (active_connections w).
Proof.
  unfold notify_agents. unfold bind at 1.
  destruct (RegistryClaims.broadcast_to_agents_ok
              (new_customer_message conversation (Customer.id customer)
                 (py_str (Customer.name customer))
                 (if opt_truthy (Customer.profile_image customer)
                  then Customer.profile_image customer else None)
                 platform (Message.id msg) message (Message.created_at msg)
                 (is_some ai)) None w) as (w1 & -> & Hdb & Hk).
  run. eexists. split; [reflexivity|]. auto.
Qed.




(** ** The handlers and the empty text *)

Lemma bind_ext {A B} (m : M A) (k1 k2 : A -> M B) (w : World) :
  (forall a w', k1 a w' = k2 a w') -> bind m k1 w = bind m k2 w.
Proof.
  intros H. unfold bind. destruct (m w) as [[a|e] w']; [apply H|reflexivity].
Qed.

Lemma bind_lift_ok {A B} (o : Outcome A) (a : A) (k : A -> M B) (w : World) :
  o = Ok a -> bind (lift o) k w = k a w.
Proof. intros ->. reflexivity. Qed.




(** On the body a [KakaoPayload] stands for, the reads give the values of
    the payload, and the handler on the request body is [kakao_webhook]. *)
Lemma truthy_text_or_null (x : option pystr) :
  truthy_val (text_or_null x) = opt_truthy x.
Proof. destruct x; reflexivity. Qed.

Lemma or_else_texts (x : option pystr) (rest : Outcome pyval)
  (xs : list (option pystr)) (d : pystr) :
  rest = Ok (PStr (first_truthy xs d)) ->
  or_else (Ok (text_or_null x)) rest = Ok (PStr (first_truthy (x :: xs) d)).
Proof.
  intros ->. unfold or_else, and_then. rewrite truthy_text_or_null.
  simpl. destruct x as [[|c s]|]; reflexivity.
Qed.

Lemma kakao_body_user_message (payload : KakaoPayload) :
  kakao_user_message (kakao_body payload) = Ok (PStr (user_message payload)).
Proof.
  unfold kakao_user_message, user_message.
  do 3 (apply or_else_texts). reflexivity.
Qed.

Lemma kakao_body_user_id (payload : KakaoPayload) :
  kakao_user_id (kakao_body payload) = Ok (PStr (user_id payload)).
Proof.
  unfold kakao_user_id, user_id. do 3 (apply or_else_texts). reflexivity.
Qed.

Lemma kakao_body_user_name (payload : KakaoPayload) :
  kakao_user_name (kakao_body payload) = Ok (PStr (user_name payload)).
Proof.
  unfold kakao_user_name, user_name. do 3 (apply or_else_texts).
  reflexivity.
Qed.

Lemma kakao_body_leaving_user_id (payload : KakaoPayload) :
  kakao_leaving_user_id (kakao_body payload)
  = Ok (PStr (leaving_user_id payload)).
Proof.
  unfold kakao_leaving_user_id, leaving_user_id.
  do 3 (apply or_else_texts). reflexivity.
Qed.

Lemma kakao_body_profile_image (payload : KakaoPayload) :
  kakao_profile_image (kakao_body payload)
  = Ok (text_or_null (profile_image payload)).
Proof.
  unfold kakao_profile_image, profile_image.
  destruct payload as [a b c d e f g h i j k l [[|x s]|]]; reflexivity.
Qed.

Lemma kakao_body_event_type (payload : KakaoPayload) :
  kakao_event_type (kakao_body payload)
  = Ok (text_or_null (event_type payload)).
Proof.
  unfold kakao_event_type, event_type.
  destruct payload as [[[|x s]|] b c d e f g h i j k l m]; reflexivity.
Qed.

Lemma is_leave_event_text (x : option pystr) :
  is_leave_event (text_or_null x)
  = col_eq x (utf8 "leave") || col_eq x (utf8 "end_chat").
Proof. destruct x; reflexivity. Qed.

Lemma kakao_webhook_on_texts (out : Outside) (env : Env)
  (payload : KakaoPayload) (w : World) :
  kakao_webhook_request out env (kakao_body payload) w
  = kakao_webhook env payload w.
Proof.
  unfold kakao_webhook_request, kakao_webhook.
  apply bind_ext. intros _ w1. cbv beta.
  rewrite (@bind_lift_ok _ _ _ _ _ _ (kakao_body_event_type payload)).
  rewrite is_leave_event_text. fold (is_leave payload).
  destruct (is_leave payload).
  - rewrite (@bind_lift_ok _ _ _ _ _ _ (kakao_body_leaving_user_id payload)).
    reflexivity.
  - rewrite (@bind_lift_ok _ _ _ _ _ _ (kakao_body_user_message payload)).
    rewrite (@bind_lift_ok _ _ _ _ _ _ (kakao_body_user_id payload)).
    rewrite (@bind_lift_ok _ _ _ _ _ _ (kakao_body_user_name payload)).
    rewrite (@bind_lift_ok _ _ _ _ _ _ (kakao_body_profile_image payload)).
    apply bind_ext. intros _ w2. cbv beta.
    cbn [truthy_val py_format].
    destruct (truthy (user_id payload) && truthy (user_message payload));
      [|reflexivity].
    unfold process_incoming_values.
    destruct (profile_image payload); reflexivity.
Qed.












(** The other handlers do the same: an Instagram event, a Facebook event
    and a mail whose text is one space are stored as messages. *)
Lemma whitespace_text_on_other_channels :
  map Message.content
    (messages (db (snd (instagram_webhook Sample.strict Sample.monday_morning
         (Sample.meta_body [Sample.text_event (utf8 "1789") (utf8 " ")])
         Sample.office))))
  = [utf8 " "]
  /\ map (fun m => (Message.channel m, Message.content m))
       (messages (db (snd (facebook_webhook Sample.strict
            Sample.monday_morning
            (Sample.meta_body [Sample.attachment_event (utf8 "1789");
                               Sample.text_event (utf8 "1789") (utf8 " ")])
            Sample.office))))
     = [(Some (utf8 "facebook"), utf8 " ")]
  /\ map Message.content
       (messages (db (snd (email_webhook Sample.strict Sample.monday_morning
            (Sample.mail (utf8 "kim@example.com") (utf8 "문의") (utf8 " "))
            Sample.office))))
     = [utf8 "[문의]" ++ [10%N; 10%N; 32%N]].
Proof. vm_compute. auto. Qed.

(** The pipeline itself has no guard at all: called with the empty text it
    stores an empty message. *)
Lemma pipeline_has_no_guard :
  map Message.content
    (messages (db (snd (process_incoming_message Sample.monday_morning
         (utf8 "kakao") (utf8 "u1") (utf8 "Kim") [] None Sample.office))))
  = [[]].
Proof. vm_compute. reflexivity. Qed.

(** ** Find or create *)

Lemma update_row_map {A B} (key : A -> Z) (g : A -> B) (k : Z) (f : A -> A)
  (rows : list A) :
  (forall r, g (f r) = g r) ->
  map g (update_row key k f rows) = map g rows.
Proof.
  intros H. induction rows as [|r rows IH]; simpl.
  - reflexivity.
  - destruct (key r =? k); simpl; [now rewrite H | now rewrite IH].
Qed.

(** C2 (as the code behaves).  The lookup of step 2 compares customer and
    channel only.  A conversation of that customer on that channel is
    therefore reused even when it is closed: no conversation is created,
    and every conversation keeps its status, so the closed one stays
    closed. *)
Theorem closed_conversation_is_reused (env : Env) (customer : Customer.t)
  (platform name : pystr) (profile_image : option pystr) (w : World)
  (c : Conversation.t) :
  find (on_channel customer platform) (conversations (db w)) = Some c ->
  Conversation.status c = Some (utf8 "closed") ->
  exists w',
    resolve_conversation env customer platform name profile_image w
    = (Ok (Conversation.id c), w')
    /\ map Conversation.id (conversations (db w'))
       = map Conversation.id (conversations (db w))
    /\ map Conversation.status (conversations (db w'))
       = map Conversation.status (conversations (db w)).
Proof.
  intros Hfind _. unfold resolve_conversation. run. rewrite Hfind.
  match goal with
  | |- context [if ?b then _ else _] => destruct b
  end; simpl.
  - eexists. split; [reflexivity|]. simpl.
    split; apply update_row_map; intros r;
      repeat match goal with
             | |- context [if ?b then _ else _] => destruct b
             end; reflexivity.
  - eexists. split; [reflexivity|]. auto.
Qed.

Lemma closed_conversation_is_reused_witness :
  map Conversation.status (conversations (db Sample.after_leave))
  = [Some (utf8 "closed")]
  /\ exists w',
       resolve_conversation Sample.monday_morning
         (Customer.mk 1 (utf8 "u1") (utf8 "kakao")
            (Some (utf8 "Kakao User")) None)
         (utf8 "kakao") (utf8 "Kakao User") None Sample.after_leave
       = (Ok 1, w')
       /\ map Conversation.id (conversations (db w')) = [1]
       /\ map Conversation.status (conversations (db w'))
          = [Some (utf8 "closed")].
Proof.
  split; [vm_compute; reflexivity|].
  apply (closed_conversation_is_reused Sample.monday_morning
           (Customer.mk 1 (utf8 "u1") (utf8 "kakao")
              (Some (utf8 "Kakao User")) None)
           (utf8 "kakao") (utf8 "Kakao User") None Sample.after_leave
           (c := Conversation.mk 1 1 (Some (utf8 "kakao"))
                   (Some (utf8 "closed")) (Some 1) (Some 1000) (Some 0)
                   (Some 1) (Some 1000) (Some (utf8 "Kakao User")) None
                   (Some 1000))).
  - vm_compute. reflexivity.
  - reflexivity.
Defined.

(** What does hold: step 2 creates a conversation only when the customer
    has none on the channel, whatever its status, and nothing it does moves
    a conversation to another customer or channel.  So it never takes the
    number of conversations of a (customer, channel) pair above one. *)
Lemma update_row_filter_length {A} (key : A -> Z) (p : A -> bool) (k : Z)
  (f : A -> A) (rows : list A) :
  (forall r, p (f r) = p r) ->
  List.length (filter p (update_row key k f rows))
  = List.length (filter p rows).
Proof.
  intros H. induction rows as [|r rows IH]; simpl.
  - reflexivity.
  - destruct (key r =? k); simpl.
    + rewrite H. destruct (p r); reflexivity.
    + destruct (p r); simpl; congruence.
Qed.

Lemma find_none_filter {A} (p : A -> bool) (rows : list A) :
  find p rows = None -> filter p rows = [].
Proof.
  induction rows as [|r rows IH]; simpl.
  - reflexivity.
  - destruct (p r); [discriminate | exact IH].
Qed.

Lemma assign_keeps_channels (env : Env) (cid : Z) (w : World)
  (p : Conversation.t -> bool) :
  (forall s a t r,
     p (Conversation.set_status s
          (Conversation.set_assigned_at t
             (Conversation.set_assigned_agent_id a r))) = p r) ->
  List.length (filter p (conversations (db (snd
     (AgentAssignmentService.assign_agent_to_conversation env cid w)))))
  = List.length (filter p (conversations (db w))).
Proof.
  intros Hp. unfold AgentAssignmentService.assign_agent_to_conversation. run.
  destruct (find (fun c => Conversation.id c =? cid) (conversations (db w)))
    as [c|]; [|reflexivity].
  destruct (Conversation.assigned_agent_id c); [reflexivity|].
  destruct (AgentAssignmentService.get_available_agents (db w))
    as [[|e l]|]; simpl; try reflexivity.
  apply update_row_filter_length. intros r. apply Hp.
Qed.

Lemma at_most_one_conversation_per_pair (env : Env) (customer : Customer.t)
  (platform name : pystr) (profile_image : option pystr) (w : World) :
  (List.length (filter (on_channel customer platform)
                  (conversations (db w))) <= 1)%nat ->
  (List.length (filter (on_channel customer platform)
     (conversations (db (snd (resolve_conversation env customer platform
                                name profile_image w))))) <= 1)%nat.
Proof.
  intros H. unfold resolve_conversation. unfold bind at 1, get_db.
  destruct (find (on_channel customer platform) (conversations (db w)))
    as [c|] eqn:Hfind.
  - run.
    match goal with
    | |- context [if ?b then _ else _] => destruct b
    end; simpl; [|exact H].
    rewrite update_row_filter_length; [exact H|].
    intros r. unfold on_channel.
    repeat match goal with
           | |- context [if ?b then _ else _] => destruct b
           end; reflexivity.
  - apply find_none_filter in Hfind.
    unfold bind at 1, modify_db. unfold bind at 1, print.
    unfold bind at 1.
    match goal with
    | |- context [AgentAssignmentService.assign_agent_to_conversation
                    ?e ?i ?w0] =>
      pose proof (assign_keeps_channels e i w0
                    (on_channel customer platform)
                    (fun _ _ _ _ => eq_refl)) as Hk;
      destruct (AgentAssignmentService.assign_agent_to_conversation e i w0)
        as [[b|x] w1]
    end; simpl in *; rewrite Hk, filter_app, Hfind; simpl;
      destruct (on_channel customer platform _); simpl; lia.
Qed.

(** The whole run: u1 writes, leaves (the conversation is closed), and
    writes again.  The second message lands in the closed conversation,
    which stays the customer's only one and stays closed. *)
Lemma message_after_leave_lands_in_closed_conversation :
  map (fun c => (Conversation.id c, Conversation.status c))
      (conversations (db Sample.after_leave))
  = [(1, Some (utf8 "closed"))]
  /\ map (fun c => (Conversation.id c, Conversation.status c,
                    Conversation.unread_count c))
       (conversations (db (snd (kakao_webhook Sample.monday_morning
          (Sample.kakao_text (utf8 "u1") (utf8 "다시 문의")) 
          Sample.after_leave))))
     = [(1, Some (utf8 "closed"), Some 2)]
  /\ map Message.conversation_id
       (messages (db (snd (kakao_webhook Sample.monday_morning
          (Sample.kakao_text (utf8 "u1") (utf8 "다시 문의"))
          Sample.after_leave))))
     = [1; 1].
Proof. vm_compute. auto. Qed.

End PipelineClaims.

(* ================================================================== *)
(** * More on the connection registry *)
(* ================================================================== *)

Module RegistryProperties.
Import ConnectionManager.

Lemma pystr_eqb_neq (a b : pystr) : a <> b -> pystr_eqb a b = false.
Proof.
  intros H. destruct (pystr_eqb a b) eqn:E; [|reflexivity].
  apply pystr_eqb_eq in E. contradiction.
Qed.

Lemma lookup_none_iff (k : pystr) (conns : list (pystr * WebSocket)) :
  lookup k conns = None <-> ~ In k (map fst conns).
Proof.
  induction conns as [|[k' ws] conns IH]; simpl.
  - tauto.
  - destruct (pystr_eqb k' k) eqn:E.
    + apply pystr_eqb_eq in E. split; [discriminate | intros H; tauto].
    + rewrite IH. split.
      * intros H [H'|H']; [subst; rewrite pystr_eqb_refl in E; discriminate
                          | tauto].
      * tauto.
Qed.

Lemma lookup_store_other (k k' : pystr) (ws : WebSocket)
  (conns : list (pystr * WebSocket)) :
  k' <> k -> lookup k' (store k ws conns) = lookup k' conns.
Proof.
  intros Hne. induction conns as [|[k0 old] conns IH]; simpl.
  - rewrite pystr_eqb_neq by congruence. reflexivity.
  - destruct (pystr_eqb k0 k) eqn:E; simpl.
    + apply pystr_eqb_eq in E. subst k0.
      rewrite pystr_eqb_neq by congruence. reflexivity.
    + destruct (pystr_eqb k0 k'); [reflexivity | exact IH].
Qed.

Lemma store_keys_new (k : pystr) (ws : WebSocket)
  (conns : list (pystr * WebSocket)) :
  lookup k conns = None ->
  map fst (store k ws conns) = map fst conns ++ [k].
Proof.
  induction conns as [|[k0 old] conns IH]; simpl.
  - reflexivity.
  - destruct (pystr_eqb k0 k); [discriminate|].
    intros H. simpl. now rewrite IH.
Qed.

Lemma store_unique (k : pystr) (ws : WebSocket)
  (conns : list (pystr * WebSocket)) :
  unique_keys conns -> unique_keys (store k ws conns).
Proof.
  unfold unique_keys. intros H.
  destruct (lookup k conns) as [old|] eqn:E.
  - now rewrite (@RegistryClaims.store_keys k old ws conns E).
  - rewrite (@store_keys_new k ws conns E).
    apply NoDup_app; [exact H | repeat constructor; intros [] | ].
    intros x Hx [<-|[]]. apply lookup_none_iff in E. contradiction.
Qed.

Lemma remove_keys_subset (k x : pystr) (conns : list (pystr * WebSocket)) :
  In x (map fst (remove k conns)) -> In x (map fst conns).
Proof.
  induction conns as [|[k0 ws] conns IH]; simpl.
  - tauto.
  - destruct (pystr_eqb k0 k); simpl; tauto.
Qed.

Lemma remove_unique (k : pystr) (conns : list (pystr * WebSocket)) :
  unique_keys conns -> unique_keys (remove k conns).
Proof.
  unfold unique_keys.
  induction conns as [|[k0 ws] conns IH]; simpl; intros H.
  - constructor.
  - inversion H; subst. destruct (pystr_eqb k0 k); simpl.
    + assumption.
    + constructor; [|auto]. intros Hin. apply remove_keys_subset in Hin.
      contradiction.
Qed.

Lemma lookup_remove_same (k : pystr) (conns : list (pystr * WebSocket)) :
  unique_keys conns -> lookup k (remove k conns) = None.
Proof.
  unfold unique_keys.
  induction conns as [|[k0 ws] conns IH]; simpl; intros H.
  - reflexivity.
  - inversion H; subst. destruct (pystr_eqb k0 k) eqn:E; simpl.
    + apply pystr_eqb_eq in E. subst. now apply lookup_none_iff.
    + rewrite E. auto.
Qed.

Lemma lookup_remove_other (k k' : pystr)
  (conns : list (pystr * WebSocket)) :
  k' <> k -> lookup k' (remove k conns) = lookup k' conns.
Proof.
  intros Hne. induction conns as [|[k0 ws] conns IH]; simpl.
  - reflexivity.
  - destruct (pystr_eqb k0 k) eqn:E; simpl.
    + apply pystr_eqb_eq in E. subst k0.
      rewrite pystr_eqb_neq by congruence. reflexivity.
    + destruct (pystr_eqb k0 k'); [reflexivity | exact IH].
Qed.

(** Registering a client (once its handshake is accepted): it is found
    under its id afterwards, with the connection just given (a previous one
    under the same id is replaced); every other id keeps its connection;
    keys stay unique; nothing else changes. *)
Theorem connect_registers (websocket : WebSocket) (client_id : pystr)
  (w : World) :
  lookup client_id (active_connections (snd (connect websocket client_id w)))
  = Some websocket
  /\ (forall k, k <> client_id ->
        lookup k (active_connections (snd (connect websocket client_id w)))
        = lookup k (active_connections w))
  /\ (unique_keys (active_connections w) ->
      unique_keys (active_connections (snd (connect websocket client_id w))))
  /\ db (snd (connect websocket client_id w)) = db w.
Proof.
  unfold connect, get_connections, set_connections. run.
  repeat split.
  - apply RegistryClaims.lookup_store.
  - intros k Hk. now apply lookup_store_other.
  - apply store_unique.
Qed.

(** Unregistering is idempotent: for an id that is not registered it does
    nothing at all, and no error is raised. *)
Theorem disconnect_absent (client_id : pystr) (w : World) :
  lookup client_id (active_connections w) = None ->
  disconnect client_id w = (Ok tt, w).
Proof.
  intros H. unfold disconnect, get_connections. run. now rewrite H.
Qed.

Lemma disconnect_absent_witness :
  disconnect (utf8 "agent_9")
    (mkWorld Sample.empty_db Sample.connections [])
  = (Ok tt, mkWorld Sample.empty_db Sample.connections []).
Proof.
  apply (disconnect_absent (utf8 "agent_9")
           (mkWorld Sample.empty_db Sample.connections [])).
  reflexivity.
Defined.

(** Unregistering a registered client removes it and only it: the id is no
    longer found, every other id keeps its connection, and a second
    [disconnect] finds nothing to do. *)
Theorem disconnect_removes (client_id : pystr) (w : World) :
  unique_keys (active_connections w) ->
  fst (disconnect client_id w) = Ok tt
  /\ lookup client_id (active_connections (snd (disconnect client_id w)))
     = None
  /\ (forall k, k <> client_id ->
        lookup k (active_connections (snd (disconnect client_id w)))
        = lookup k (active_connections w))
  /\ unique_keys (active_connections (snd (disconnect client_id w)))
  /\ disconnect client_id (snd (disconnect client_id w))
     = (Ok tt, snd (disconnect client_id w)).
Proof.
  intros Hu.
  assert (Hcore :
    fst (disconnect client_id w) = Ok tt
    /\ lookup client_id (active_connections (snd (disconnect client_id w)))
       = None
    /\ (forall k, k <> client_id ->
          lookup k (active_connections (snd (disconnect client_id w)))
          = lookup k (active_connections w))
    /\ unique_keys (active_connections (snd (disconnect client_id w)))).
  { unfold disconnect, get_connections, set_connections. run.
    destruct (lookup client_id (active_connections w)) as [ws|] eqn:E; simpl.
    - repeat split.
      + now apply lookup_remove_same.
      + intros k Hk. now apply lookup_remove_other.
      + now apply remove_unique.
    - repeat split; auto. }
  destruct Hcore as (H1 & H2 & H3 & H4).
  repeat split; auto.
  now apply disconnect_absent.
Qed.

Lemma disconnect_removes_witness :
  fst (disconnect (utf8 "agent_2")
         (mkWorld Sample.empty_db Sample.connections [])) = Ok tt
  /\ lookup (utf8 "agent_2")
       (active_connections
          (snd (disconnect (utf8 "agent_2")
                  (mkWorld Sample.empty_db Sample.connections []))))
     = None
  /\ (forall k, k <> utf8 "agent_2" ->
        lookup k
          (active_connections
             (snd (disconnect (utf8 "agent_2")
                     (mkWorld Sample.empty_db Sample.connections []))))
        = lookup k Sample.connections)
  /\ unique_keys
       (active_connections
          (snd (disconnect (utf8 "agent_2")
                  (mkWorld Sample.empty_db Sample.connections []))))
  /\ disconnect (utf8 "agent_2")
       (snd (disconnect (utf8 "agent_2")
               (mkWorld Sample.empty_db Sample.connections [])))
     = (Ok tt,
        snd (disconnect (utf8 "agent_2")
               (mkWorld Sample.empty_db Sample.connections []))).
Proof.
  apply (disconnect_removes (utf8 "agent_2")
           (mkWorld Sample.empty_db Sample.connections [])).
  unfold unique_keys. simpl.
  repeat constructor; simpl; intuition discriminate.
Defined.

Lemma lookup_app_fresh (k : pystr) (ws : WebSocket)
  (pre suf : list (pystr * WebSocket)) :
  ~ In k (map fst pre) -> lookup k (pre ++ (k, ws) :: suf) = Some ws.
Proof.
  induction pre as [|[k0 x] pre IH]; simpl; intros H.
  - now rewrite pystr_eqb_refl.
  - rewrite pystr_eqb_neq by tauto. apply IH. tauto.
Qed.

Lemma store_app_fresh (k : pystr) (ws ws' : WebSocket)
  (pre suf : list (pystr * WebSocket)) :
  ~ In k (map fst pre) ->
  store k ws' (pre ++ (k, ws) :: suf) = pre ++ (k, ws') :: suf.
Proof.
  induction pre as [|[k0 x] pre IH]; simpl; intros H.
  - now rewrite pystr_eqb_refl.
  - rewrite pystr_eqb_neq by tauto. rewrite IH by tauto. reflexivity.
Qed.

(** One guarded send, on the client at the head of what is left to do. *)
Lemma try_send_at (message : Payload) (k : pystr) (ws : WebSocket)
  (pre suf : list (pystr * WebSocket)) (line : LogLine) (w : World) :
  active_connections w = pre ++ (k, ws) :: suf ->
  ~ In k (map fst pre) ->
  try_except (send_on k message) line w
  = (Ok tt,
     mkWorld (db w) (pre ++ (k, after_send message ws) :: suf)
       (stdout w ++ (if broken ws then [line] else []))).
Proof.
  intros Hc Hk. unfold try_except, send_on, after_send. rewrite Hc.
  rewrite (@lookup_app_fresh k ws pre suf Hk). unfold send_text.
  destruct (broken ws); simpl.
  - rewrite (@store_app_fresh k ws ws pre suf Hk). reflexivity.
  - rewrite (@store_app_fresh k ws _ pre suf Hk). now rewrite app_nil_r.
Qed.

Lemma unique_split (k : pystr) (ws : WebSocket)
  (pre suf : list (pystr * WebSocket)) :
  unique_keys (pre ++ (k, ws) :: suf) -> ~ In k (map fst pre).
Proof.
  unfold unique_keys. rewrite map_app. simpl. intros H.
  apply NoDup_remove_2 in H. intros Hin. apply H, in_or_app. now left.
Qed.

Lemma agents_loop_reaches (message : Payload)
  (exclude_client : option pystr) (suf : list (pystr * WebSocket)) :
  forall (pre : list (pystr * WebSocket)) (w : World),
    active_connections w = pre ++ suf ->
    unique_keys (pre ++ suf) ->
    broadcast_to_agents_loop message exclude_client (map fst suf) w
    = (Ok tt,
       mkWorld (db w)
         (pre ++ reached (is_agent_target exclude_client) message suf)
         (stdout w ++ failures (is_agent_target exclude_client)
                        log_agent_broadcast_error suf)).
Proof.
  induction suf as [|[k ws] suf IH]; intros pre w Hc Hu; simpl.
  - unfold ret, reached, failures. simpl.
    rewrite app_nil_r in Hc. rewrite !app_nil_r, <- Hc. now destruct w.
  - unfold bind, when. fold (is_agent_target exclude_client k).
    pose proof (@unique_split k ws pre suf Hu) as Hk.
    destruct (is_agent_target exclude_client k); simpl.
    + rewrite (@try_send_at message k ws pre suf
                 (log_agent_broadcast_error k) w Hc Hk).
      rewrite (IH (pre ++ [(k, after_send message ws)])); simpl.
      * rewrite <- !app_assoc. reflexivity.
      * now rewrite <- app_assoc.
      * unfold unique_keys in *. rewrite <- app_assoc. simpl.
        rewrite map_app in *. exact Hu.
    + unfold ret. rewrite (IH (pre ++ [(k, ws)])); simpl.
      * rewrite <- !app_assoc. reflexivity.
      * now rewrite <- app_assoc.
      * now rewrite <- app_assoc.
Qed.

Lemma broadcast_loop_reaches (message : Payload)
  (suf : list (pystr * WebSocket)) :
  forall (pre : list (pystr * WebSocket)) (w : World),
    active_connections w = pre ++ suf ->
    unique_keys (pre ++ suf) ->
    broadcast_loop message (map fst suf) w
    = (Ok tt,
       mkWorld (db w)
         (pre ++ reached (fun _ => true) message suf)
         (stdout w ++ failures (fun _ => true) log_broadcast_error suf)).
Proof.
  induction suf as [|[k ws] suf IH]; intros pre w Hc Hu; simpl.
  - unfold ret, reached, failures. simpl.
    rewrite app_nil_r in Hc. rewrite !app_nil_r, <- Hc. now destruct w.
  - unfold bind.
    pose proof (@unique_split k ws pre suf Hu) as Hk.
    rewrite (@try_send_at message k ws pre suf (log_broadcast_error k) w
               Hc Hk).
    rewrite (IH (pre ++ [(k, after_send message ws)])); simpl.
    + rewrite <- !app_assoc. reflexivity.
    + now rewrite <- app_assoc.
    + unfold unique_keys in *. rewrite <- app_assoc. simpl.
      rewrite map_app in *. exact Hu.
Qed.

(** The broadcast to agents makes one delivery attempt on every registered
    client whose id starts with "agent_" and is not the excluded one, in
    registration order, and on no other client: a healthy target gets the
    message appended once, a broken one stays registered and costs one
    printed line.  The call returns normally and leaves the database
    alone. *)
Theorem broadcast_to_agents_reaches (message : Payload)
  (exclude_client : option pystr) (w : World) :
  unique_keys (active_connections w) ->
  broadcast_to_agents message exclude_client w
  = (Ok tt,
     mkWorld (db w)
       (reached (is_agent_target exclude_client) message
          (active_connections w))
       (stdout w ++ failures (is_agent_target exclude_client)
                      log_agent_broadcast_error (active_connections w))).
Proof.
  intros Hu. unfold broadcast_to_agents, get_connections, bind.
  exact (@agents_loop_reaches message exclude_client
           (active_connections w) [] w eq_refl Hu).
Qed.

Lemma broadcast_to_agents_reaches_witness :
  broadcast_to_agents (text_message (utf8 "hello"))
    (Some (utf8 "agent_1"))
    (mkWorld Sample.empty_db Sample.crowd [])
  = (Ok tt,
     mkWorld Sample.empty_db
       (reached (is_agent_target (Some (utf8 "agent_1")))
          (text_message (utf8 "hello")) Sample.crowd)
       ([] ++ failures (is_agent_target (Some (utf8 "agent_1")))
                log_agent_broadcast_error Sample.crowd)).
Proof.
  apply (broadcast_to_agents_reaches (text_message (utf8 "hello"))
           (Some (utf8 "agent_1"))
           (mkWorld Sample.empty_db Sample.crowd [])).
  unfold unique_keys. simpl.
  repeat constructor; simpl; intuition discriminate.
Defined.

(** The broadcast to everybody makes one delivery attempt on every
    registered client; a failing client does not stop the others. *)
Theorem broadcast_reaches_all (message : Payload) (w : World) :
  unique_keys (active_connections w) ->
  broadcast message w
  = (Ok tt,
     mkWorld (db w)
       (reached (fun _ => true) message (active_connections w))
       (stdout w ++ failures (fun _ => true) log_broadcast_error
                      (active_connections w))).
Proof.
  intros Hu. unfold broadcast, get_connections, bind.
  exact (@broadcast_loop_reaches message (active_connections w) [] w
           eq_refl Hu).
Qed.

Lemma broadcast_reaches_all_witness :
  broadcast (text_message (utf8 "hello"))
    (mkWorld Sample.empty_db Sample.crowd [])
  = (Ok tt,
     mkWorld Sample.empty_db
       (reached (fun _ => true) (text_message (utf8 "hello")) Sample.crowd)
       ([] ++ failures (fun _ => true) log_broadcast_error Sample.crowd)).
Proof.
  apply (broadcast_reaches_all (text_message (utf8 "hello"))
           (mkWorld Sample.empty_db Sample.crowd [])).
  unfold unique_keys. simpl.
  repeat constructor; simpl; intuition discriminate.
Defined.

End RegistryProperties.

(* ================================================================== *)
(** * More on agent assignment *)
(* ================================================================== *)

Module AssignmentProperties.
Import AgentAssignmentService AssignmentFacts.

(** The head of a stably sorted list is the first minimum of the input. *)
Lemma sort_by_head {A} (key : A -> Z) (l : list A) (x : A) (r : list A) :
  sort_by key l = x :: r ->
  exists pre post,
    l = pre ++ x :: post
    /\ (forall y, In y pre -> key x < key y)
    /\ (forall y, In y post -> key x <= key y).
Proof.
  revert x r. induction l as [|a l IH]; simpl; intros x r H.
  - discriminate.
  - destruct (sort_by key l) as [|y r'] eqn:E; simpl in H.
    + injection H as <- <-.
      assert (l = []) as ->.
      { apply Permutation_nil. rewrite <- E. apply sort_by_perm. }
      exists [], []. simpl. repeat split; intros ? [].
    + destruct (IH y r' eq_refl) as (pre & post & -> & Hpre & Hpost).
      destruct (key a <=? key y) eqn:Ele.
      * apply Z.leb_le in Ele. injection H as <- <-.
        exists [], (pre ++ y :: post). simpl.
        split; [reflexivity|]. split; [intros ? []|].
        intros z Hz. apply in_app_or in Hz.
        destruct Hz as [Hz|[<-|Hz]].
        -- specialize (Hpre z Hz). lia.
        -- exact Ele.
        -- specialize (Hpost z Hz). lia.
      * apply Z.leb_gt in Ele. injection H as <- <-.
        exists (a :: pre), post. simpl.
        split; [reflexivity|]. split; [|exact Hpost].
        intros z [<-|Hz]; [exact Ele | now apply Hpre].
Qed.

(** The entry automatic assignment takes, the head of the list, is the
    first agent of minimal load in the order of the users table: every
    eligible agent before it has strictly more open conversations, every
    one after it has at least as many. *)
Theorem selected_agent_is_first_least_loaded (d : DB) (e : entry)
  (rest : list entry) :
  get_available_agents d = Ok (e :: rest) ->
  exists pre post,
    available_agents_spec d = pre ++ e :: post
    /\ (forall x, In x pre -> current_load e < current_load x)
    /\ (forall x, In x post -> current_load e <= current_load x).
Proof.
  intros H. apply get_available_agents_ok in H. symmetry in H.
  exact (sort_by_head current_load _ H).
Qed.

Lemma selected_agent_is_first_least_loaded_witness :
  exists pre post,
    available_agents_spec Sample.three_agents
    = pre ++ mk_entry (Sample.online_agent 2 4) 1 4 :: post
    /\ (forall x, In x pre -> 1 < current_load x)
    /\ (forall x, In x post -> 1 <= current_load x).
Proof.
  exact (selected_agent_is_first_least_loaded Sample.three_agents
           (e := mk_entry (Sample.online_agent 2 4) 1 4)
           (rest := [mk_entry (Sample.online_agent 3 5) 1 5;
                     mk_entry (Sample.online_agent 1 5) 2 5])
           eq_refl).
Defined.

(** The query fails exactly when some agent of the pool has no capacity,
    and then with a [TypeError]: such an agent makes it raise wherever it
    stands in the pool, nothing else makes it raise, and the rows of
    agents outside the pool never matter. *)
Theorem availability_fails_on_missing_capacity (d : DB) :
  ((exists u, In u (users d) /\ in_pool u = true
              /\ User.max_concurrent_chats u = None)
   <-> get_available_agents d = Raise TypeError)
  /\ (forall e, get_available_agents d = Raise e -> e = TypeError)
  /\ ((forall u, In u (users d) -> in_pool u = true ->
                 User.max_concurrent_chats u <> None) ->
      exists l, get_available_agents d = Ok l).
Proof.
  split; [split|split].
  - intros (u & Hin & Hp & Hnone).
    exact (@AssignmentFacts.get_available_agents_none d u Hin Hp Hnone).
  - intros H.
    destruct (@AssignmentClaims.get_available_agents_raises d _ H)
      as [_ Hu].
    exact Hu.
  - intros e H.
    destruct (@AssignmentClaims.get_available_agents_raises d _ H)
      as [He _].
    exact He.
  - intros Hcap. eexists.
    now apply AssignmentFacts.get_available_agents_total.
Qed.

(** Unless it returns true, assignment has written nothing: a missing
    conversation, an empty list of candidates and a failing query all
    leave the database and the registry as they were. *)
Theorem assignment_writes_only_on_success (env : Env) (cid : Z)
  (w : World) :
  fst (assign_agent_to_conversation env cid w) <> Ok true ->
  db (snd (assign_agent_to_conversation env cid w)) = db w
  /\ active_connections (snd (assign_agent_to_conversation env cid w))
     = active_connections w.
Proof.
  unfold assign_agent_to_conversation. run.
  destruct (find (fun c => Conversation.id c =? cid) (conversations (db w)))
    as [c|]; [|auto].
  destruct (Conversation.assigned_agent_id c); [auto|].
  destruct (get_available_agents (db w)) as [[|e l]|]; simpl; auto.
  intros H. exfalso. apply H. reflexivity.
Qed.

Lemma assignment_writes_only_on_success_witness :
  db (snd (assign_agent_to_conversation Sample.saturday_noon 99
             (Sample.world_of Sample.two_agents)))
  = Sample.two_agents
  /\ active_connections
       (snd (assign_agent_to_conversation Sample.saturday_noon 99
               (Sample.world_of Sample.two_agents)))
     = [].
Proof.
  apply (assignment_writes_only_on_success Sample.saturday_noon 99
           (Sample.world_of Sample.two_agents)).
  discriminate.
Defined.

(** Counting after an update of one row. *)
Lemma length_after_update {A} (key : A -> Z) (p : A -> bool) (k : Z)
  (f : A -> A) (rows : list A) (r : A) :
  find (fun x => key x =? k) rows = Some r ->
  p r = false ->
  List.length (filter p (update_row key k f rows))
  = (List.length (filter p rows) + (if p (f r) then 1 else 0))%nat.
Proof.
  intros Hfind Hp. induction rows as [|x rows IH]; simpl in *.
  - discriminate.
  - destruct (key x =? k) eqn:E.
    + injection Hfind as ->. simpl. rewrite Hp.
      destruct (p (f r)); simpl; lia.
    + simpl. destruct (p x); simpl; rewrite IH by assumption; reflexivity.
Qed.

Lemma count_after_update {A} (key : A -> Z) (p : A -> bool) (k : Z)
  (f : A -> A) (rows : list A) (r : A) :
  find (fun x => key x =? k) rows = Some r ->
  p r = false ->
  Z.of_nat (List.length (filter p (update_row key k f rows)))
  = Z.of_nat (List.length (filter p rows)) + (if p (f r) then 1 else 0).
Proof.
  intros Hfind Hp. rewrite (@length_after_update A key p k f rows r Hfind Hp).
  rewrite Nat2Z.inj_add. destruct (p (f r)); reflexivity.
Qed.

Lemma assign_load_change (env : Env) (cid : Z) (w : World)
  (c : Conversation.t) (e : entry) (rest : list entry) :
  find (fun x => Conversation.id x =? cid) (conversations (db w)) = Some c ->
  Conversation.assigned_agent_id c = None ->
  get_available_agents (db w) = Ok (e :: rest) ->
  (forall n,
     open_chats (db (snd (assign_agent_to_conversation env cid w))) n
     = open_chats (db w) n + (if User.id (agent e) =? n then 1 else 0))
  /\ open_chats (db (snd (assign_agent_to_conversation env cid w)))
       (User.id (agent e)) <= capacity e.
Proof.
  intros Hfind Hnone Hl.
  assert (Hload : forall n,
     open_chats (db (snd (assign_agent_to_conversation env cid w))) n
     = open_chats (db w) n + (if User.id (agent e) =? n then 1 else 0)).
  { intros n. unfold assign_agent_to_conversation. run.
    rewrite Hfind, Hnone, Hl. simpl. unfold open_chats. simpl.
    destruct (find_id _ _ Hfind) as [_ Hid]. rewrite Hid.
    match goal with
    | |- context [filter ?p (update_row _ _ ?f _)] =>
      rewrite (@count_after_update _ Conversation.id p cid f _ c Hfind)
    end.
    - simpl. destruct (User.id (agent e) =? n); reflexivity.
    - now rewrite Hnone. }
  split; [exact Hload|].
  rewrite Hload, Z.eqb_refl.
  apply get_available_agents_ok in Hl.
  assert (Hin : In e (available_agents_spec (db w))).
  { eapply Permutation_in; [apply sort_by_perm|]. rewrite <- Hl. now left. }
  apply in_available_agents_spec in Hin.
  destruct Hin as (_ & _ & Hcur & _ & Hlt). rewrite <- Hcur. lia.
Qed.

(** A successful automatic assignment raises the open load of the chosen
    agent by exactly one and changes nobody else's; the chosen agent ends
    at or below capacity. *)
Theorem assignment_adds_one_to_load (env : Env) (cid : Z) (w : World)
  (c : Conversation.t) (e : entry) (rest : list entry) :
  find (fun x => Conversation.id x =? cid) (conversations (db w)) = Some c ->
  Conversation.assigned_agent_id c = None ->
  get_available_agents (db w) = Ok (e :: rest) ->
  (forall n,
     open_chats (db (snd (assign_agent_to_conversation env cid w))) n
     = open_chats (db w) n + (if User.id (agent e) =? n then 1 else 0))
  /\ open_chats (db (snd (assign_agent_to_conversation env cid w)))
       (User.id (agent e)) <= capacity e.
Proof. apply assign_load_change. Qed.

Lemma assignment_adds_one_to_load_witness :
  (forall n,
     open_chats (db (snd (assign_agent_to_conversation Sample.saturday_noon 6
                            (Sample.world_of Sample.two_agents)))) n
     = open_chats Sample.two_agents n + (if 1 =? n then 1 else 0))
  /\ open_chats (db (snd (assign_agent_to_conversation Sample.saturday_noon 6
                            (Sample.world_of Sample.two_agents)))) 1 <= 5.
Proof.
  exact (assignment_adds_one_to_load Sample.saturday_noon 6
           (Sample.world_of Sample.two_agents)
           (c := Sample.conversation 6 16 "kakao" "open" None)
           (e := mk_entry (Sample.online_agent 1 5) 2 5) (rest := [])
           eq_refl eq_refl eq_refl).
Defined.

(** Reassignment leaves these columns of every conversation as they
    were: id, customer, channel, status, priority, unread count, time of
    the last message, profile name and picture, and time of creation; no
    other table changes, nor the registry.  (What it assigns is the agent
    and the assignment time, and the update of the row makes the ORM
    refresh [updated_at]; automatic assignment, in contrast, also sets
    the status to open.) *)
Theorem reassign_keeps_other_columns (env : Env) (cid n : Z)
  (w : World) :
  map unassigned_part
      (conversations (db (snd (reassign_agent env cid n w))))
  = map unassigned_part (conversations (db w))
  /\ users (db (snd (reassign_agent env cid n w))) = users (db w)
  /\ customers (db (snd (reassign_agent env cid n w))) = customers (db w)
  /\ messages (db (snd (reassign_agent env cid n w))) = messages (db w)
  /\ business_hours (db (snd (reassign_agent env cid n w)))
     = business_hours (db w)
  /\ active_connections (snd (reassign_agent env cid n w))
     = active_connections w.
Proof.
  unfold reassign_agent. run.
  destruct (find (fun c => Conversation.id c =? cid) (conversations (db w)))
    as [c|]; simpl; [|auto 10].
  destruct (find _ (users (db w))) as [u|]; simpl; [|auto 10].
  repeat split.
  apply PipelineClaims.update_row_map. reflexivity.
Qed.

Lemma assignment_twice_witness :
  assign_agent_to_conversation Sample.monday_morning 6
    (snd (assign_agent_to_conversation Sample.saturday_noon 6
            (Sample.world_of Sample.two_agents)))
  = (Ok true,
     snd (assign_agent_to_conversation Sample.saturday_noon 6
            (Sample.world_of Sample.two_agents))).
Proof.
  apply (AssignmentClaims.assignment_twice Sample.saturday_noon
           Sample.monday_morning 6 (Sample.world_of Sample.two_agents)).
  reflexivity.
Defined.

End AssignmentProperties.

(* ================================================================== *)
(** * More on business hours *)
(* ================================================================== *)

Module HoursProperties.
Import BusinessHoursService.

Lemma in_range (n : nat) (z : Z) :
  0 <= z < Z.of_nat n -> In z (map Z.of_nat (seq 0 n)).
Proof.
  intros H. apply in_map_iff. exists (Z.to_nat z). split; [lia|].
  apply in_seq. lia.
Qed.

(** Every time of day written as zero-padded ["HH:MM"] is read back as
    that time. *)
Lemma strptime_hhmm (h m : Z) :
  0 <= h <= 23 -> 0 <= m <= 59 ->
  strptime_HM (hhmm h m) = Ok (mkTime h m 0 0).
Proof.
  intros Hh Hm.
  assert (Hall :
    forallb (fun h' =>
      forallb (fun m' =>
        match strptime_HM (hhmm h' m') with
        | Ok t => (hour t =? h') && (minute t =? m')
                  && (second t =? 0) && (microsecond t =? 0)
        | Raise _ => false
        end) (map Z.of_nat (seq 0 60))) (map Z.of_nat (seq 0 24)) = true)
    by (vm_compute; reflexivity).
  rewrite forallb_forall in Hall.
  specialize (Hall h (@in_range 24 h ltac:(simpl; lia))).
  rewrite forallb_forall in Hall.
  specialize (Hall m (@in_range 60 m ltac:(simpl; lia))).
  destruct (strptime_HM (hhmm h m)) as [[h' m' s' u']|]; [|discriminate].
  simpl in Hall. rewrite !andb_true_iff, !Z.eqb_eq in Hall.
  destruct Hall as [[[-> ->] ->] ->]. reflexivity.
Qed.

(** On a day whose first active row holds well-formed times, the check does
    not raise and answers true exactly from the opening minute to the first
    instant of the closing minute, both ends included: at 18:00:00 sharp a
    shop closing at 18:00 is still open, one microsecond later it is
    closed. *)
Theorem business_hours_window (env : Env) (d : DB) (tz : pystr)
  (b : BusinessHours.t) (ho mo hc mc : Z) :
  find (fun r => (BusinessHours.day_of_week r =? weekday (now env tz))
                 && col_true (BusinessHours.is_active r))
       (business_hours d) = Some b ->
  BusinessHours.open_time b = hhmm ho mo ->
  BusinessHours.close_time b = hhmm hc mc ->
  0 <= ho <= 23 -> 0 <= mo <= 59 -> 0 <= hc <= 23 -> 0 <= mc <= 59 ->
  exists answer,
    is_business_hours env d tz = Ok answer
    /\ (answer = true <->
        (ho * 60 + mo) * 60000000
        <= micros (time_of_day (now env tz))
        <= (hc * 60 + mc) * 60000000).
Proof.
  intros Hfind Ho Hc Hho Hmo Hhc Hmc. unfold is_business_hours.
  rewrite Hfind, Ho, Hc, (strptime_hhmm Hho Hmo), (strptime_hhmm Hhc Hmc).
  unfold time_le.
  replace (micros (mkTime ho mo 0 0)) with ((ho * 60 + mo) * 60000000)
    by (unfold micros; simpl; lia).
  replace (micros (mkTime hc mc 0 0)) with ((hc * 60 + mc) * 60000000)
    by (unfold micros; simpl; lia).
  set (t := micros (time_of_day (now env tz))).
  destruct ((ho * 60 + mo) * 60000000 <=? t) eqn:E1;
    destruct (t <=? (hc * 60 + mc) * 60000000) eqn:E2; simpl;
    eexists; (split; [reflexivity|]);
    rewrite ?Z.leb_le, ?Z.leb_gt in *;
    split; intros; try lia; try discriminate; reflexivity.
Qed.

Lemma business_hours_window_witness :
  exists answer,
    is_business_hours (Sample.at_time 0 18 0 chat_raises)
      Sample.default_hours (utf8 "Asia/Seoul") = Ok answer
    /\ (answer = true <->
        (9 * 60 + 0) * 60000000
        <= micros (mkTime 18 0 0 0)
        <= (18 * 60 + 0) * 60000000).
Proof.
  apply (business_hours_window (Sample.at_time 0 18 0 chat_raises)
           Sample.default_hours (utf8 "Asia/Seoul")
           (b := BusinessHours.mk 1 0 (utf8 "09:00") (utf8 "18:00")
                   (Some true) (Some (utf8 "Asia/Seoul")))
           (ho := 9) (mo := 0) (hc := 18) (mc := 0));
    first [reflexivity | lia].
Defined.

(** Hours that run past midnight never open: when the closing time is
    earlier than the opening time, every moment of that day is outside
    business hours. *)
Theorem overnight_hours_never_open (env : Env) (d : DB) (tz : pystr)
  (b : BusinessHours.t) (ho mo hc mc : Z) :
  find (fun r => (BusinessHours.day_of_week r =? weekday (now env tz))
                 && col_true (BusinessHours.is_active r))
       (business_hours d) = Some b ->
  BusinessHours.open_time b = hhmm ho mo ->
  BusinessHours.close_time b = hhmm hc mc ->
  0 <= ho <= 23 -> 0 <= mo <= 59 -> 0 <= hc <= 23 -> 0 <= mc <= 59 ->
  hc * 60 + mc < ho * 60 + mo ->
  is_business_hours env d tz = Ok false.
Proof.
  intros Hfind Ho Hc Hho Hmo Hhc Hmc Hlt. unfold is_business_hours.
  rewrite Hfind, Ho, Hc, (strptime_hhmm Hho Hmo), (strptime_hhmm Hhc Hmc).
  unfold time_le.
  replace (micros (mkTime ho mo 0 0)) with ((ho * 60 + mo) * 60000000)
    by (unfold micros; simpl; lia).
  replace (micros (mkTime hc mc 0 0)) with ((hc * 60 + mc) * 60000000)
    by (unfold micros; simpl; lia).
  set (t := micros (time_of_day (now env tz))).
  destruct ((ho * 60 + mo) * 60000000 <=? t) eqn:E1;
    destruct (t <=? (hc * 60 + mc) * 60000000) eqn:E2; simpl;
    try reflexivity.
  rewrite Z.leb_le in *. lia.
Qed.

Lemma overnight_hours_never_open_witness :
  is_business_hours (Sample.at_time 0 23 30 chat_raises) Sample.night_shop
    (utf8 "Asia/Seoul") = Ok false.
Proof.
  apply (overnight_hours_never_open (Sample.at_time 0 23 30 chat_raises)
           Sample.night_shop (utf8 "Asia/Seoul")
           (b := BusinessHours.mk 1 0 (utf8 "22:00") (utf8 "06:00")
                   (Some true) (Some (utf8 "Asia/Seoul")))
           (ho := 22) (mo := 0) (hc := 6) (mc := 0));
    first [reflexivity | lia].
Defined.

(** Seeding the weekly table is idempotent.  A table that already has a
    row is left alone; an empty one gets seven rows, Monday to Friday
    active from 09:00 to 18:00, Saturday and Sunday inactive; no other
    table is touched. *)
Theorem default_hours_seeded_once (w : World) :
  (business_hours (db w) <> [] ->
   db (snd (create_default_business_hours w)) = db w)
  /\ (business_hours (db w) = [] ->
      map (fun b => (BusinessHours.day_of_week b, BusinessHours.open_time b,
                     BusinessHours.close_time b, BusinessHours.is_active b))
          (business_hours (db (snd (create_default_business_hours w))))
      = [(0, hhmm 9 0, hhmm 18 0, Some true);
         (1, hhmm 9 0, hhmm 18 0, Some true);
         (2, hhmm 9 0, hhmm 18 0, Some true);
         (3, hhmm 9 0, hhmm 18 0, Some true);
         (4, hhmm 9 0, hhmm 18 0, Some true);
         (5, hhmm 0 0, hhmm 0 0, Some false);
         (6, hhmm 0 0, hhmm 0 0, Some false)])
  /\ db (snd (create_default_business_hours
                (snd (create_default_business_hours w))))
     = db (snd (create_default_business_hours w))
  /\ users (db (snd (create_default_business_hours w))) = users (db w)
  /\ customers (db (snd (create_default_business_hours w)))
     = customers (db w)
  /\ conversations (db (snd (create_default_business_hours w)))
     = conversations (db w)
  /\ messages (db (snd (create_default_business_hours w)))
     = messages (db w).
Proof.
  assert (Hkeep : forall w0, business_hours (db w0) <> [] ->
            db (snd (create_default_business_hours w0)) = db w0).
  { intros w0 H. unfold create_default_business_hours. run.
    destruct (business_hours (db w0)); [now elim H | reflexivity]. }
  split; [apply Hkeep|].
  destruct (business_hours (db w)) as [|b rows] eqn:E.
  - assert (Hrows :
      map (fun b => (BusinessHours.day_of_week b, BusinessHours.open_time b,
                     BusinessHours.close_time b, BusinessHours.is_active b))
          (business_hours (db (snd (create_default_business_hours w))))
      = [(0, hhmm 9 0, hhmm 18 0, Some true);
         (1, hhmm 9 0, hhmm 18 0, Some true);
         (2, hhmm 9 0, hhmm 18 0, Some true);
         (3, hhmm 9 0, hhmm 18 0, Some true);
         (4, hhmm 9 0, hhmm 18 0, Some true);
         (5, hhmm 0 0, hhmm 0 0, Some false);
         (6, hhmm 0 0, hhmm 0 0, Some false)]).
    { unfold create_default_business_hours. run. rewrite E. simpl.
      rewrite E. reflexivity. }
    split; [intros _; exact Hrows|].
    split.
    + apply Hkeep. intros H. rewrite H in Hrows. discriminate.
    + unfold create_default_business_hours. run. rewrite E. simpl. auto.
  - split; [discriminate|].
    assert (Hsame : db (snd (create_default_business_hours w)) = db w)
      by (apply Hkeep; rewrite E; discriminate).
    split.
    + apply Hkeep. rewrite Hsame, E. discriminate.
    + rewrite Hsame. auto.
Qed.

End HoursProperties.

(* ================================================================== *)
(** * More on the chatbot and the Kakao reply *)
(* ================================================================== *)

Module ChatbotProperties.

Lemma startswith_iff (s p : pystr) :
  startswith s p = true <-> exists b, s = p ++ b.
Proof.
  revert s. induction p as [|c p IH]; intros s; simpl.
  - split; [intros _; now exists s | intros _; destruct s; reflexivity].
  - destruct s as [|d s]; simpl.
    + split; [discriminate | intros [b H]; discriminate].
    + rewrite andb_true_iff, N.eqb_eq, IH. split.
      * intros [-> [b ->]]. now exists b.
      * intros [b H]. injection H as -> ->. split; [reflexivity|now exists b].
Qed.

(** The [in] of Python on strings: a contiguous occurrence. *)
Lemma py_in_iff (sub s : pystr) :
  py_in sub s = true <-> exists a b, s = a ++ sub ++ b.
Proof.
  split.
  - induction s as [|c s IH]; cbn [py_in]; rewrite orb_true_iff.
    + intros [H|H]; [|discriminate].
      apply startswith_iff in H. destruct H as [b H]. now exists [], b.
    + intros [H|H].
      * apply startswith_iff in H. destruct H as [b H]. now exists [], b.
      * destruct (IH H) as (a & b & ->). now exists (c :: a), b.
  - intros (a & b & ->). induction a as [|c a IH].
    + cbn [app]. destruct (sub ++ b) eqn:E; cbn [py_in];
        rewrite orb_true_iff; left; apply startswith_iff; exists b;
        now rewrite E.
    + cbn [app py_in]. rewrite IH. apply orb_true_r.
Qed.

(** The keyword heuristic answers true exactly when the message contains
    one of the twelve simple keywords as a contiguous piece; so adding text
    before or after a message never turns a true into a false. *)
Theorem auto_respond_on_substring (message : pystr) :
  (OllamaChatbot.should_auto_respond message = true <->
   exists k a b, In k OllamaChatbot.simple_keywords
                 /\ message = a ++ k ++ b)
  /\ (forall before after,
        OllamaChatbot.should_auto_respond message = true ->
        OllamaChatbot.should_auto_respond (before ++ message ++ after)
        = true).
Proof.
  assert (H : forall m,
    OllamaChatbot.should_auto_respond m = true <->
    exists k a b, In k OllamaChatbot.simple_keywords /\ m = a ++ k ++ b).
  { intros m.
    unfold OllamaChatbot.should_auto_respond, any_keyword_in.
    rewrite existsb_exists. split.
    - intros (k & Hk & Hin). apply py_in_iff in Hin.
      destruct Hin as (a & b & ->). now exists k, a, b.
    - intros (k & a & b & Hk & ->). exists k. split; [exact Hk|].
      apply py_in_iff. now exists a, b. }
  split; [apply H|].
  intros before after Hm. apply H. apply H in Hm.
  destruct Hm as (k & a & b & Hk & ->).
  exists k, (before ++ a), (b ++ after). split; [exact Hk|].
  now rewrite <- !app_assoc.
Qed.

Lemma reply_is_bounded_core (env : Env) (user_message : pystr) (w : World) :
  exists reply w',
    OllamaChatbot.get_response env user_message w = (Ok reply, w')
    /\ db w' = db w
    /\ active_connections w' = active_connections w.
Proof.
  unfold OllamaChatbot.get_response.
  destruct (ollama_available env); simpl.
  - destruct (ollama_chat env) as [|answer].
    + run. eexists _, _. split; [reflexivity|]. auto.
    + destruct (Z.of_nat (List.length (strip answer)) >? 500);
        eexists _, _; (split; [reflexivity|]); auto.
  - eexists _, _. split; [reflexivity|]. auto.
Qed.

(** Whatever the model does, [get_response] returns a text and does not
    raise; the text has at most 530 code points (500 of the answer plus the
    notice that it was cut); the database and the registry are left
    alone. *)
Theorem reply_is_bounded (env : Env) (user_message : pystr) (w : World) :
  exists reply w',
    OllamaChatbot.get_response env user_message w = (Ok reply, w')
    /\ (List.length reply <= 530)%nat
    /\ db w' = db w
    /\ active_connections w' = active_connections w.
Proof.
  unfold OllamaChatbot.get_response.
  destruct (ollama_available env); cbn [negb].
  - destruct (ollama_chat env) as [|answer].
    + run. eexists _, _. split; [reflexivity|].
      split; [vm_compute; lia | auto].
    + destruct (Z.of_nat (List.length (strip answer)) >? 500) eqn:E.
      * eexists _, _. split; [reflexivity|]. split; [|auto].
        rewrite length_app, length_firstn.
        replace (List.length OllamaChatbot.truncation_notice) with 30%nat
          by (vm_compute; reflexivity).
        lia.
      * eexists _, _. split; [reflexivity|]. split; [|auto].
        assert (Z.of_nat (List.length (strip answer)) <= 500) by lia. lia.
  - eexists _, _. split; [reflexivity|].
    split; [vm_compute; lia | auto].
Qed.



(** [analyze_intent] answers one of its five labels; a greeting keyword
    wins over everything else in the message; and the answer is the
    fallback label exactly when no keyword of any intent occurs. *)
Theorem intent_of_message (message : pystr) :
  In (OllamaChatbot.analyze_intent message)
     (map fst OllamaChatbot.intents)
  /\ (any_keyword_in [utf8 "안녕"; utf8 "hi"; utf8 "hello"; utf8 "반가"]
        message = true ->
      OllamaChatbot.analyze_intent message = utf8 "인사")
  /\ (OllamaChatbot.analyze_intent message = utf8 "기타" <->
      existsb (fun keywords => any_keyword_in keywords message)
              (map snd OllamaChatbot.intents) = false).
Proof.
  unfold OllamaChatbot.analyze_intent, OllamaChatbot.intents,
    OllamaChatbot.first_intent.
  cbn [map fst snd existsb].
  destruct (any_keyword_in [utf8 "안녕"; utf8 "hi"; utf8 "hello"; utf8 "반가"]
              message);
  destruct (any_keyword_in
              [utf8 "기능"; utf8 "사용법"; utf8 "방법"; utf8 "어떻게"] message);
  destruct (any_keyword_in
              [utf8 "카카오"; utf8 "인스타"; utf8 "페이스북"; utf8 "연동";
               utf8 "채널"] message);
  destruct (any_keyword_in
              [utf8 "오류"; utf8 "안돼"; utf8 "작동"; utf8 "문제"] message);
  cbn [orb any_keyword_in existsb];
  (split; [cbn [In]; tauto|]);
  (split; [intros; first [reflexivity | discriminate]|]);
  (split; intros H; first [reflexivity | vm_compute in H; discriminate]).
Qed.

(** The reply sent back to Kakao always carries a non-empty text, and
    building it never raises nor touches the database or the registry. *)
Theorem kakao_reply_never_empty (env : Env)
  (payload : webhook.KakaoPayload) (w : World) :
  exists reply w',
    kakao_service.process_kakao_message env payload w = (Ok reply, w')
    /\ truthy (kakao_service.reply_text reply) = true
    /\ db w' = db w
    /\ active_connections w' = active_connections w.
Proof.
  unfold kakao_service.process_kakao_message.
  destruct (truthy (kakao_service.user_message payload)); simpl.
  - destruct (OllamaChatbot.should_auto_respond
                (kakao_service.user_message payload)).
    + destruct (reply_is_bounded_core env
                  (kakao_service.user_message payload) w)
        as (r & w' & E & Hdb & Hc).
      unfold bind. rewrite E. run. eexists _, _.
      split; [reflexivity|]. simpl. split; [|auto].
      unfold py_or. destruct (truthy r) eqn:Hr; [exact Hr | reflexivity].
    + eexists _, _. split; [reflexivity|]. auto.
  - eexists _, _. split; [reflexivity|]. auto.
Qed.

(** The two readers of a Kakao body disagree on where the text is: a text
    that comes only as [message.text] is what the handler stores through
    the pipeline, while the reply builder sees no text at all and answers
    with the greeting. *)
Theorem kakao_reply_ignores_message_text (env : Env)
  (payload : webhook.KakaoPayload) (text : pystr) (w : World) :
  opt_truthy (webhook.p_content payload) = false ->
  opt_truthy (webhook.p_utterance payload) = false ->
  webhook.p_message_text payload = Some text ->
  truthy text = true ->
  webhook.user_message payload = text
  /\ kakao_service.process_kakao_message env payload w
     = (Ok (kakao_service.mk_reply kakao_service.greeting false), w).
Proof.
  intros Hc Hu Hm Ht. split.
  - unfold webhook.user_message. simpl. rewrite Hc, Hu, Hm. simpl.
    now rewrite Ht.
  - unfold kakao_service.process_kakao_message, kakao_service.user_message.
    simpl. rewrite Hc, Hu. reflexivity.
Qed.

Lemma kakao_reply_ignores_message_text_witness :
  webhook.user_message Sample.kakao_message_text = utf8 "환불 문의"
  /\ kakao_service.process_kakao_message Sample.monday_morning
       Sample.kakao_message_text Sample.office
     = (Ok (kakao_service.mk_reply kakao_service.greeting false),
        Sample.office).
Proof.
  apply (kakao_reply_ignores_message_text Sample.monday_morning
           Sample.kakao_message_text (text := utf8 "환불 문의")
           Sample.office); reflexivity.
Defined.

End ChatbotProperties.

(* ================================================================== *)
(** * More on the inbound pipeline *)
(* ================================================================== *)

Module PipelineProperties.
Import webhook.

(** ** Nothing is lost *)

Lemma db_grows_refl (d : DB) : db_grows d d.
Proof.
  unfold db_grows. repeat split; try (exists []; now rewrite app_nil_r).
Qed.

Lemma db_grows_trans (a b c : DB) :
  db_grows a b -> db_grows b c -> db_grows a c.
Proof.
  intros (U1 & B1 & [m1 M1] & [c1 C1] & [v1 V1])
         (U2 & B2 & [m2 M2] & [c2 C2] & [v2 V2]).
  unfold db_grows. repeat split; try congruence.
  - exists (m1 ++ m2). now rewrite M2, M1, app_assoc.
  - exists (c1 ++ c2). now rewrite C2, C1, app_assoc.
  - exists (v1 ++ v2). now rewrite V2, V1, app_assoc.
Qed.

Lemma grows_refl (w : World) : grows w w.
Proof. split; [apply db_grows_refl | reflexivity]. Qed.

Lemma grows_trans (a b c : World) : grows a b -> grows b c -> grows a c.
Proof.
  intros [D1 K1] [D2 K2]. split; [eapply db_grows_trans; eauto | congruence].
Qed.

Lemma grows_bind {A B} (m : M A) (k : A -> M B) :
  (forall w, grows w (snd (m w))) ->
  (forall a w, grows w (snd (k a w))) ->
  forall w, grows w (snd (bind m k w)).
Proof.
  intros Hm Hk w. unfold bind. specialize (Hm w).
  destruct (m w) as [[a|e] w']; simpl in *.
  - eapply grows_trans; [exact Hm | apply Hk].
  - exact Hm.
Qed.

Lemma grows_modify (f : DB -> DB) :
  (forall d, db_grows d (f d)) -> forall w, grows w (snd (modify_db f w)).
Proof. intros H w. split; [apply H | reflexivity]. Qed.

Lemma grows_print (l : LogLine) (w : World) : grows w (snd (print l w)).
Proof. split; [apply db_grows_refl | reflexivity]. Qed.

Lemma grows_when (b : bool) (m : M unit) :
  (forall w, grows w (snd (m w))) -> forall w, grows w (snd (when b m w)).
Proof. intros H w. destruct b; [apply H | apply grows_refl]. Qed.

Lemma db_grows_update_conversation (k : Z)
  (f : Conversation.t -> Conversation.t) (d : DB) :
  (forall r, Conversation.id (f r) = Conversation.id r) ->
  db_grows d (update_conversation k f d).
Proof.
  intros H. unfold db_grows, update_conversation. simpl.
  repeat split; try (exists []; now rewrite app_nil_r).
  exists []. rewrite app_nil_r. now apply PipelineClaims.update_row_map.
Qed.

Lemma db_grows_update_customer (k : Z) (f : Customer.t -> Customer.t)
  (d : DB) :
  (forall r, Customer.id (f r) = Customer.id r) ->
  db_grows d (update_customer k f d).
Proof.
  intros H. unfold db_grows, update_customer. simpl.
  repeat split; try (exists []; now rewrite app_nil_r).
  exists []. rewrite app_nil_r. now apply PipelineClaims.update_row_map.
Qed.

Lemma db_grows_add_customer (c : Customer.t) (d : DB) :
  db_grows d (set_customers (customers d ++ [c]) d).
Proof.
  unfold db_grows. simpl.
  repeat split; try (exists []; now rewrite app_nil_r).
  exists [Customer.id c]. now rewrite map_app.
Qed.

Lemma db_grows_add_conversation (c : Conversation.t) (d : DB) :
  db_grows d (set_conversations (conversations d ++ [c]) d).
Proof.
  unfold db_grows. simpl.
  repeat split; try (exists []; now rewrite app_nil_r).
  exists [Conversation.id c]. now rewrite map_app.
Qed.

Lemma db_grows_add_message (m : Message.t) (d : DB) :
  db_grows d (set_messages (messages d ++ [m]) d).
Proof.
  unfold db_grows. simpl.
  repeat split; try (exists []; now rewrite app_nil_r).
  now exists [m].
Qed.

Ltac grow :=
  repeat first
    [ apply grows_refl
    | apply grows_print
    | match goal with
      | |- forall _ : World, _ => intro
      | |- grows _ (snd (bind _ _ _)) => apply grows_bind; [intros ?|intros ? ?]
      | |- grows _ (snd (when _ _ _)) => apply grows_when; intros ?
      | |- grows _ (snd (modify_db _ _)) => apply grows_modify; intros ?
      end ].

Lemma grows_resolve_customer (platform external_id name : pystr)
  (profile_image : option pystr) (w : World) :
  grows w (snd (resolve_customer platform external_id name profile_image w)).
Proof.
  unfold resolve_customer. revert w. apply grows_bind; [intros w; apply grows_refl|].
  intros d w.
  destruct (find _ (customers d)) as [c|].
  - match goal with
    | |- context [if ?b then _ else _] => destruct b
    end; [|apply grows_refl].
    revert w. grow. apply db_grows_update_customer. intros r.
    repeat match goal with
           | |- context [if ?b then _ else _] => destruct b
           end; reflexivity.
  - revert w. grow. apply db_grows_add_customer.
Qed.

Lemma grows_assign (env : Env) (cid : Z) (w : World) :
  grows w (snd (AgentAssignmentService.assign_agent_to_conversation
                  env cid w)).
Proof.
  unfold AgentAssignmentService.assign_agent_to_conversation.
  revert w. apply grows_bind; [intros w; apply grows_refl|].
  intros d w.
  destruct (find _ (conversations d)) as [c|]; [|apply grows_refl].
  destruct (Conversation.assigned_agent_id c); [apply grows_refl|].
  revert w. apply grows_bind; [intros w; apply grows_refl|].
  intros [|e l] w; revert w; grow.
  apply db_grows_update_conversation. reflexivity.
Qed.

Lemma grows_resolve_conversation (env : Env) (customer : Customer.t)
  (platform name : pystr) (profile_image : option pystr) (w : World) :
  grows w (snd (resolve_conversation env customer platform name
                  profile_image w)).
Proof.
  unfold resolve_conversation.
  revert w. apply grows_bind; [intros w; apply grows_refl|].
  intros d w.
  destruct (find _ (conversations d)) as [c|]; revert w; grow.
  - apply db_grows_update_conversation. intros r.
    repeat match goal with
           | |- context [if ?b then _ else _] => destruct b
           end; reflexivity.
  - apply db_grows_add_conversation.
  - apply grows_assign.
Qed.

Lemma grows_store (env : Env) (conversation : Z) (platform message : pystr)
  (w : World) :
  grows w (snd (store_customer_message env conversation platform message w)).
Proof.
  unfold store_customer_message. revert w. grow.
  - apply db_grows_add_message.
  - apply db_grows_update_conversation. reflexivity.
Qed.

Lemma grows_get_response (env : Env) (message : pystr) (w : World) :
  grows w (snd (OllamaChatbot.get_response env message w)).
Proof.
  destruct (ChatbotProperties.reply_is_bounded_core env message w)
    as (r & w' & E & Hdb & Hc).
  rewrite E. simpl. split; [rewrite Hdb; apply db_grows_refl|].
  now rewrite Hc.
Qed.

Lemma grows_auto_reply (env : Env) (conversation : Z)
  (platform message : pystr) (w : World) :
  grows w (snd (auto_reply env conversation platform message w)).
Proof.
  unfold auto_reply. revert w.
  apply grows_bind; [apply grows_get_response|]. intros r. grow.
  apply db_grows_add_message.
Qed.

Lemma grows_broadcast (message : Payload) (ex : option pystr) (w : World) :
  grows w (snd (ConnectionManager.broadcast_to_agents message ex w)).
Proof.
  destruct (RegistryClaims.broadcast_to_agents_ok message ex w)
    as (w' & E & Hdb & Hk).
  rewrite E. simpl. split; [rewrite Hdb; apply db_grows_refl | exact Hk].
Qed.

Lemma grows_notify (customer : Customer.t) (conversation : Z)
  (msg : Message.t) (platform message : pystr) (ai : option pystr)
  (w : World) :
  grows w (snd (notify_agents customer conversation msg platform message
                  ai w)).
Proof.
  unfold notify_agents. revert w.
  apply grows_bind; [intros w; apply grows_broadcast|]. intros ?. grow.
Qed.

Lemma grows_pipeline (env : Env)
  (platform external_id name message : pystr)
  (profile_image : option pystr) (w : World) :
  grows w (snd (process_incoming_message env platform external_id name
                  message profile_image w)).
Proof.
  unfold process_incoming_message, intake. revert w.
  apply grows_bind.
  - apply grows_bind; [intros w; apply grows_resolve_customer|].
    intros c. apply grows_bind; [intros w; apply grows_resolve_conversation|].
    intros k. apply grows_bind; [intros w; apply grows_store|].
    intros m w. apply grows_refl.
  - intros [[c k] m].
    apply grows_bind; [intros w; apply grows_refl|]. intros d.
    apply grows_bind; [intros w; unfold lift; apply grows_refl|].
    intros [|].
    + apply grows_bind; [intros w; apply grows_auto_reply|].
      intros ai w. apply grows_notify.
    + apply grows_bind; [intros w; apply grows_refl|].
      intros ai w. apply grows_notify.
Qed.

(** Whatever arrives on the Kakao webhook, and also when the request fails
    midway, nothing stored is lost: users and business hours are not
    touched, every stored message is still there, unchanged and in place,
    with at most new ones after it, no customer or conversation is deleted
    or renumbered, and the registry holds the same clients.  The same holds
    of the pipeline on its own. *)
Theorem inbound_requests_only_add (env : Env) :
  (forall platform external_id name message profile_image w,
     grows w (snd (process_incoming_message env platform external_id name
                     message profile_image w)))
  /\ (forall payload w, grows w (snd (kakao_webhook env payload w))).
Proof.
  split; [intros; apply grows_pipeline|].
  intros payload w. unfold kakao_webhook. revert w.
  apply grows_bind; [intros w; apply grows_print|]. intros _.
  destruct (is_leave payload).
  - apply grows_bind; [|intros ? w; apply grows_refl].
    apply grows_when.
    apply grows_bind; [intros w; apply grows_print|]. intros _.
    apply grows_bind; [intros w; apply grows_refl|]. intros d.
    destruct (open_kakao_conversation d (leaving_user_id payload)) as [c|];
      [|intros w; apply grows_refl].
    apply grows_bind.
    + apply grows_modify. intros d0.
      apply db_grows_update_conversation. reflexivity.
    + intros _. apply grows_bind; [intros w; apply grows_print|].
      intros _ w. apply grows_broadcast.
  - apply grows_bind; [intros w; apply grows_print|]. intros _.
    apply grows_bind; [|intros ? w; apply grows_refl].
    destruct (truthy (user_id payload) && truthy (user_message payload)).
    + apply grows_bind; [intros w; apply grows_pipeline|].
      intros _ w. apply grows_print.
    + intros w. apply grows_print.
Qed.

(** ** Partial failure and the quiet paths *)

(** When the decision of step 5 raises (a mistyped time in the weekly
    table, an agent without capacity), the request fails, but steps 1 to 4
    are already committed: the customer's message stays stored and no
    agent is notified of it. *)
Theorem failed_decision_keeps_message (env : Env)
  (platform external_id name message : pystr) (profile_image : option pystr)
  (w w1 : World) (x : Customer.t * Z * Message.t) (e : exn) :
  intake env platform external_id name message profile_image w
  = (Ok x, w1) ->
  auto_response_decision env (db w1) message = Raise e ->
  process_incoming_message env platform external_id name message
    profile_image w
  = (Raise e, w1).
Proof.
  intros Hin Hdec. unfold process_incoming_message.
  unfold bind at 1. rewrite Hin. destruct x as [[c k] m].
  unfold bind at 1, get_db. unfold bind at 1, lift. now rewrite Hdec.
Qed.

Lemma failed_decision_keeps_message_witness :
  process_incoming_message (Sample.monday_evening chat_raises)
    (utf8 "kakao") (utf8 "u1") (utf8 "Kim") (utf8 "안녕하세요") None
    Sample.mistyped_office
  = (Raise ValueError, Sample.mistyped_office_after_intake).
Proof.
  apply (failed_decision_keeps_message (Sample.monday_evening chat_raises)
           (utf8 "kakao") (utf8 "u1") (utf8 "Kim") (utf8 "안녕하세요") None
           Sample.mistyped_office
           (w1 := Sample.mistyped_office_after_intake)
           (x := (Sample.kim, 1, Sample.kim_says_hello))).
  - vm_compute. reflexivity.
  - vm_compute. reflexivity.
Defined.





(** ** Find or create, once more *)


Lemma find_app_last {A} (p : A -> bool) (l : list A) (x : A) :
  find p l = None -> p x = true -> find p (l ++ [x]) = Some x.
Proof.
  induction l as [|y l IH]; simpl; intros Hn Hx.
  - now rewrite Hx.
  - destruct (p y); [discriminate | auto].
Qed.


Lemma find_update_unique {A} (key : A -> Z) (p : A -> bool) (f : A -> A)
  (rows : list A) (c : A) :
  NoDup (map key rows) ->
  find p rows = Some c ->
  p (f c) = true ->
  find p (update_row key (key c) f rows) = Some (f c).
Proof.
  induction rows as [|x rows IH]; simpl; intros Hnd Hfind Hp.
  - discriminate.
  - inversion Hnd as [|? ? Hnotin Hnd']; subst.
    destruct (p x) eqn:Ex.
    + injection Hfind as ->. rewrite Z.eqb_refl. simpl. now rewrite Hp.
    + assert (Hin : In c rows) by (apply find_some in Hfind; tauto).
      destruct (key x =? key c) eqn:E.
      * apply Z.eqb_eq in E. exfalso. apply Hnotin. rewrite E.
        now apply in_map.
      * simpl. rewrite Ex. now apply IH.
Qed.

(** The same (external_id, platform) pair always resolves to the same
    customer: a second message, whatever name and picture it carries,
    finds the customer the first one found or created, and adds no row. *)
Theorem repeat_sender_is_one_customer (platform external_id : pystr)
  (name1 name2 : pystr) (image1 image2 : option pystr) (w : World) :
  NoDup (map Customer.id (customers (db w))) ->
  exists c1 w1 c2 w2,
    resolve_customer platform external_id name1 image1 w = (Ok c1, w1)
    /\ resolve_customer platform external_id name2 image2 w1 = (Ok c2, w2)
    /\ Customer.id c2 = Customer.id c1
    /\ Customer.external_id c1 = external_id
    /\ Customer.platform c1 = platform
    /\ List.length (customers (db w2)) = List.length (customers (db w1)).
Proof.
  intros Hnd.
  (* what a call does once the customer is there *)
  assert (Hfound : forall name image w0 c,
    find (fun c => pystr_eqb (Customer.external_id c) external_id
                   && pystr_eqb (Customer.platform c) platform)
         (customers (db w0)) = Some c ->
    exists c' w',
      resolve_customer platform external_id name image w0 = (Ok c', w')
      /\ Customer.id c' = Customer.id c
      /\ List.length (customers (db w')) = List.length (customers (db w0))).
  { intros name image w0 c Hc. unfold resolve_customer. run. rewrite Hc.
    match goal with
    | |- context [if ?b then _ else _] => destruct b
    end; simpl.
    - eexists _, _. split; [reflexivity|]. simpl. split.
      + repeat match goal with
               | |- context [if ?b then _ else _] => destruct b
               end; reflexivity.
      + apply update_row_length.
    - eexists _, _. split; [reflexivity|]. auto. }
  destruct (find (fun c => pystr_eqb (Customer.external_id c) external_id
                           && pystr_eqb (Customer.platform c) platform)
                 (customers (db w))) as [c|] eqn:Hfind.
  - (* the customer exists: the first call may rewrite its name or picture *)
    assert (Hkey : pystr_eqb (Customer.external_id c) external_id
                   && pystr_eqb (Customer.platform c) platform = true)
      by (apply find_some in Hfind; tauto).
    apply andb_true_iff in Hkey. destruct Hkey as [He Hp].
    apply pystr_eqb_eq in He, Hp.
    unfold resolve_customer at 1. run. rewrite Hfind.
    match goal with
    | |- context [if ?b then _ else _] => destruct b eqn:Hb
    end; simpl.
    + match goal with
      | |- context [update_customer _ ?f _] => set (write := f)
      end.
      assert (Hw : pystr_eqb (Customer.external_id (write c)) external_id
                   && pystr_eqb (Customer.platform (write c)) platform
                   = true).
      { subst write. cbv beta.
        repeat match goal with
               | |- context [if ?b then _ else _] => destruct b
               end; simpl; rewrite He, Hp, !pystr_eqb_refl; reflexivity. }
      destruct (Hfound name2 image2
                  (mkWorld (update_customer (Customer.id c) write (db w))
                     (active_connections w)
                     (stdout w ++ [log_customer_updated (Customer.id c)]))
                  (write c)) as (c2 & w2 & E2 & Hid & Hlen).
      { simpl. apply (find_update_unique Customer.id _ write _ Hnd Hfind Hw). }
      eexists _, _, c2, w2. split; [reflexivity|].
      split; [exact E2|]. split; [|split; [|split]].
      * rewrite Hid. subst write. cbv beta.
        repeat match goal with
               | |- context [if ?b then _ else _] => destruct b
               end; reflexivity.
      * subst write. cbv beta.
        repeat match goal with
               | |- context [if ?b then _ else _] => destruct b
               end; simpl; exact He.
      * subst write. cbv beta.
        repeat match goal with
               | |- context [if ?b then _ else _] => destruct b
               end; simpl; exact Hp.
      * exact Hlen.
    + destruct (Hfound name2 image2 w c Hfind) as (c2 & w2 & E2 & Hid & Hlen).
      eexists _, _, c2, w2. split; [reflexivity|]. auto.
  - (* the customer is new: the first call appends it *)
    unfold resolve_customer at 1. run. rewrite Hfind. simpl.
    match goal with
    | |- context [customers (db w) ++ [?c]] => set (new := c)
    end.
    destruct (Hfound name2 image2
                (mkWorld (set_customers (customers (db w) ++ [new]) (db w))
                   (active_connections w)
                   (stdout w ++ [log_customer_created (Customer.id new)]))
                new) as (c2 & w2 & E2 & Hid & Hlen).
    { simpl. apply find_app_last; [exact Hfind|].
      subst new. simpl. now rewrite !pystr_eqb_refl. }
    eexists _, _, c2, w2. split; [reflexivity|]. auto.
Qed.

Lemma repeat_sender_is_one_customer_witness :
  exists c1 w1 c2 w2,
    resolve_customer (utf8 "kakao") (utf8 "u1") (utf8 "Kim") None
      Sample.after_leave = (Ok c1, w1)
    /\ resolve_customer (utf8 "kakao") (utf8 "u1") (utf8 "Kim Minsu")
         (Some (utf8 "https://img.test/kim.png")) w1 = (Ok c2, w2)
    /\ Customer.id c2 = Customer.id c1
    /\ Customer.external_id c1 = utf8 "u1"
    /\ Customer.platform c1 = utf8 "kakao"
    /\ List.length (customers (db w2)) = List.length (customers (db w1)).
Proof.
  apply (repeat_sender_is_one_customer (utf8 "kakao") (utf8 "u1")
           (utf8 "Kim") (utf8 "Kim Minsu") None
           (Some (utf8 "https://img.test/kim.png")) Sample.after_leave).
  vm_compute. repeat constructor. intros [].
Defined.

Lemma open_chats_with_unassigned (d : DB) (c : Conversation.t) (n : Z) :
  Conversation.assigned_agent_id c = None ->
  AgentAssignmentService.open_chats
    (set_conversations (conversations d ++ [c]) d) n
  = AgentAssignmentService.open_chats d n.
Proof.
  intros H. unfold AgentAssignmentService.open_chats. simpl.
  rewrite filter_app. simpl. rewrite H. simpl. now rewrite app_nil_r.
Qed.




Lemma at_most_one_conversation_per_pair_witness :
  (List.length (filter (on_channel Sample.kim (utf8 "kakao"))
     (conversations (db (snd (resolve_conversation Sample.monday_morning
        Sample.kim (utf8 "kakao") (utf8 "Kim") None Sample.after_leave)))))
   <= 1)%nat.
Proof.
  apply (PipelineClaims.at_most_one_conversation_per_pair
           Sample.monday_morning Sample.kim (utf8 "kakao") (utf8 "Kim") None
           Sample.after_leave).
  vm_compute. lia.
Defined.

(** ** Loads *)

Lemma loads_refl (w : World) : loads_within_capacity w w.
Proof. split; [reflexivity|]. intros n. split; [lia|left; lia]. Qed.

Lemma loads_trans (a b c : World) :
  loads_within_capacity a b -> loads_within_capacity b c ->
  loads_within_capacity a c.
Proof.
  intros [U1 H1] [U2 H2]. split; [congruence|]. intros n.
  destruct (H1 n) as [L1 C1]. destruct (H2 n) as [L2 C2].
  split; [lia|].
  destruct C2 as [C2|(u & cap & Hu & Hp & Hid & Hcap & Hle)].
  - destruct C1 as [C1|(u & cap & Hu & Hp & Hid & Hcap & Hle)].
    + left. lia.
    + right. exists u, cap. repeat split; auto. lia.
  - right. exists u, cap. rewrite U1 in Hu. repeat split; auto.
Qed.

Lemma loads_same (w w' : World) :
  users (db w') = users (db w) ->
  (forall n, AgentAssignmentService.open_chats (db w') n
             = AgentAssignmentService.open_chats (db w) n) ->
  loads_within_capacity w w'.
Proof.
  intros U H. split; [exact U|]. intros n. rewrite H. split; [lia|left; lia].
Qed.

Lemma loads_bind {A B} (m : M A) (k : A -> M B) :
  (forall w, loads_within_capacity w (snd (m w))) ->
  (forall a w, loads_within_capacity w (snd (k a w))) ->
  forall w, loads_within_capacity w (snd (bind m k w)).
Proof.
  intros Hm Hk w. unfold bind. specialize (Hm w).
  destruct (m w) as [[a|e] w']; simpl in *.
  - eapply loads_trans; [exact Hm | apply Hk].
  - exact Hm.
Qed.

Lemma loads_print (l : LogLine) (w : World) :
  loads_within_capacity w (snd (print l w)).
Proof. apply loads_same; reflexivity. Qed.

Lemma loads_when (b : bool) (m : M unit) :
  (forall w, loads_within_capacity w (snd (m w))) ->
  forall w, loads_within_capacity w (snd (when b m w)).
Proof. intros H w. destruct b; [apply H | apply loads_refl]. Qed.

Lemma loads_modify (f : DB -> DB) :
  (forall d, users (f d) = users d) ->
  (forall d n, AgentAssignmentService.open_chats (f d) n
               = AgentAssignmentService.open_chats d n) ->
  forall w, loads_within_capacity w (snd (modify_db f w)).
Proof. intros U H w. apply loads_same; simpl; auto. Qed.

Lemma open_chats_update (k : Z) (f : Conversation.t -> Conversation.t)
  (d : DB) (n : Z) :
  (forall r, Conversation.assigned_agent_id (f r)
             = Conversation.assigned_agent_id r) ->
  (forall r, Conversation.status (f r) = Conversation.status r) ->
  AgentAssignmentService.open_chats (update_conversation k f d) n
  = AgentAssignmentService.open_chats d n.
Proof.
  intros Ha Hs. unfold AgentAssignmentService.open_chats. simpl.
  rewrite PipelineClaims.update_row_filter_length; [reflexivity|].
  intros r. now rewrite Ha, Hs.
Qed.

Ltac loads :=
  repeat first
    [ apply loads_refl
    | apply loads_print
    | match goal with
      | |- forall _ : World, _ => intro
      | |- loads_within_capacity _ (snd (bind _ _ _)) =>
        apply loads_bind; [intros ?|intros ? ?]
      | |- loads_within_capacity _ (snd (when _ _ _)) =>
        apply loads_when; intros ?
      end ].

Lemma loads_resolve_customer (platform external_id name : pystr)
  (profile_image : option pystr) (w : World) :
  loads_within_capacity w
    (snd (resolve_customer platform external_id name profile_image w)).
Proof.
  unfold resolve_customer. revert w.
  apply loads_bind; [intros w; apply loads_refl|]. intros d w.
  destruct (find _ (customers d)) as [c|].
  - match goal with
    | |- context [if ?b then _ else _] => destruct b
    end; [|apply loads_refl].
    revert w. loads; apply loads_modify; reflexivity.
  - revert w. loads; apply loads_modify; reflexivity.
Qed.

Lemma loads_assign (env : Env) (cid : Z) (w : World) :
  loads_within_capacity w
    (snd (AgentAssignmentService.assign_agent_to_conversation env cid w)).
Proof.
  destruct (find (fun c => Conversation.id c =? cid) (conversations (db w)))
    as [c|] eqn:Hfind.
  2:{ unfold AgentAssignmentService.assign_agent_to_conversation. run.
      rewrite Hfind. apply loads_same; reflexivity. }
  destruct (Conversation.assigned_agent_id c) as [a|] eqn:Ha.
  { unfold AgentAssignmentService.assign_agent_to_conversation. run.
    rewrite Hfind, Ha. apply loads_same; reflexivity. }
  destruct (AgentAssignmentService.get_available_agents (db w))
    as [[|e l]|x] eqn:Hl.
  - unfold AgentAssignmentService.assign_agent_to_conversation. run.
    rewrite Hfind, Ha, Hl. apply loads_same; reflexivity.
  - destruct (AssignmentProperties.assign_load_change env cid w Hfind Ha Hl)
      as [Hload Hcap].
    split.
    + unfold AgentAssignmentService.assign_agent_to_conversation. run.
      rewrite Hfind, Ha, Hl. reflexivity.
    + intros n. rewrite Hload.
      destruct (User.id (AgentAssignmentService.agent e) =? n) eqn:En.
      * apply Z.eqb_eq in En. split; [lia|]. right.
        apply AssignmentFacts.get_available_agents_ok in Hl.
        assert (Hin : In e (AgentAssignmentService.available_agents_spec
                              (db w))).
        { eapply Permutation_in; [apply sort_by_perm|]. rewrite <- Hl.
          now left. }
        apply AssignmentFacts.in_available_agents_spec in Hin.
        destruct Hin as (Hu & Hp & _ & Hc & _).
        exists (AgentAssignmentService.agent e),
               (AgentAssignmentService.capacity e).
        repeat split; auto.
        pose proof (Hload (User.id (AgentAssignmentService.agent e))) as H0.
        rewrite Z.eqb_refl in H0. subst n. lia.
      * split; [lia|left; lia].
  - unfold AgentAssignmentService.assign_agent_to_conversation. run.
    rewrite Hfind, Ha, Hl. apply loads_same; reflexivity.
Qed.

Lemma loads_resolve_conversation (env : Env) (customer : Customer.t)
  (platform name : pystr) (profile_image : option pystr) (w : World) :
  loads_within_capacity w
    (snd (resolve_conversation env customer platform name profile_image w)).
Proof.
  unfold resolve_conversation. revert w.
  apply loads_bind; [intros w; apply loads_refl|]. intros d w.
  destruct (find _ (conversations d)) as [c|]; revert w.
  - apply loads_bind; [|intros ? w; apply loads_refl].
    apply loads_when. apply loads_bind; [|intros ? w; apply loads_print].
    apply loads_modify; [reflexivity|]. intros d0 n.
    apply open_chats_update; intros r;
      repeat match goal with
             | |- context [if ?b then _ else _] => destruct b
             end; reflexivity.
  - apply loads_bind.
    + apply loads_modify; [reflexivity|]. intros d0 n.
      now apply open_chats_with_unassigned.
    + intros _. apply loads_bind; [intros w; apply loads_print|]. intros _.
      apply loads_bind; [intros w; apply loads_assign|].
      intros ? w. apply loads_refl.
Qed.

Lemma loads_store (env : Env) (conversation : Z)
  (platform message : pystr) (w : World) :
  loads_within_capacity w
    (snd (store_customer_message env conversation platform message w)).
Proof.
  unfold store_customer_message. revert w.
  apply loads_bind; [intros w; apply loads_refl|]. intros d.
  apply loads_bind; [apply loads_modify; reflexivity|]. intros _.
  apply loads_bind; [|intros ? w; apply loads_refl].
  apply loads_modify; [reflexivity|]. intros d0 n.
  apply open_chats_update; reflexivity.
Qed.

Lemma loads_auto_reply (env : Env) (conversation : Z)
  (platform message : pystr) (w : World) :
  loads_within_capacity w
    (snd (auto_reply env conversation platform message w)).
Proof.
  unfold auto_reply. revert w. apply loads_bind.
  - intros w.
    destruct (ChatbotProperties.reply_is_bounded_core env message w)
      as (r & w' & E & Hdb & _).
    rewrite E. simpl. apply loads_same; now rewrite Hdb.
  - intros r. apply loads_bind; [|intros ? w; apply loads_refl].
    apply loads_when.
    apply loads_bind; [intros w; apply loads_refl|]. intros d.
    apply loads_bind; [|intros ? w; apply loads_print].
    apply loads_modify; reflexivity.
Qed.

Lemma loads_notify (customer : Customer.t) (conversation : Z)
  (msg : Message.t) (platform message : pystr) (ai : option pystr)
  (w : World) :
  loads_within_capacity w
    (snd (notify_agents customer conversation msg platform message ai w)).
Proof.
  destruct (PipelineClaims.notify_agents_ok customer conversation msg
              platform message ai w) as (w' & E & Hdb & _).
  rewrite E. simpl. apply loads_same; now rewrite Hdb.
Qed.

(** Processing an inbound message never unassigns anybody and never
    overloads anybody: no agent's count of open conversations goes down,
    and an agent whose count went up (the new conversation was assigned to
    them) belongs to the automatic-assignment pool and is still within
    [max_concurrent_chats]; this also holds when the request fails
    midway. *)
Theorem inbound_message_respects_capacity (env : Env)
  (platform external_id name message : pystr)
  (profile_image : option pystr) (w : World) :
  loads_within_capacity w
    (snd (process_incoming_message env platform external_id name message
            profile_image w)).
Proof.
  unfold process_incoming_message, intake. revert w.
  apply loads_bind.
  - apply loads_bind; [intros w; apply loads_resolve_customer|].
    intros c. apply loads_bind; [intros w; apply loads_resolve_conversation|].
    intros k. apply loads_bind; [intros w; apply loads_store|].
    intros m w. apply loads_refl.
  - intros [[c k] m].
    apply loads_bind; [intros w; apply loads_refl|]. intros d.
    apply loads_bind; [intros w; unfold lift; apply loads_refl|].
    intros [|].
    + apply loads_bind; [intros w; apply loads_auto_reply|].
      intros ai w. apply loads_notify.
    + apply loads_bind; [intros w; apply loads_refl|].
      intros ai w. apply loads_notify.
Qed.

(** ** The leave event *)

(** ** The leave event *)






End PipelineProperties.
